(** * promi / examples/main.py : timing an XES import and export

    The script under verification is [src/examples/main.py]:

<<
    in_path = '../static/xes/book/bigger-example.xes'
    out_path = '/tmp/out.xes'

    print(f'{in_path} --> {out_path}')

    t_s = time()
    log = xes_import_factory.apply(in_path)
    t_m = time()
    xes_exporter.export_log(log, out_path)
    t_e = time()

    print(f'read in {t_m-t_s:.3f}s, wrote in {t_e-t_m:.3f}s')
>>

    The script is embedded as a computation in a small monad that threads
    the observable trace of the run and propagates exceptions; the clock
    and the two pm4py calls are answered by an environment.  Python floats
    are IEEE 754 binary64 numbers: they are modelled by the Standard
    Library's [spec_float] and its [SFsub], and the format specification
    [.3f] by an exact decimal conversion.

    Two models are given.  The first runs the body (lines 6-18) on a
    console that accepts every line: only the two pm4py calls may raise.
    The second, [Process], follows the file from its [import] statements to
    the exit of the interpreter: the imports and [print] may raise too, and
    the flush of the console at shutdown may fail.  On a host whose imports
    succeed and whose console accepts every line the two agree. *)

From Stdlib Require Import ZArith List String Ascii Bool Lia.
From Stdlib Require Import Floats.SpecFloat DecimalString.
From Stdlib Require DecimalPos DecimalN.
Import ListNotations.

Local Open Scope string_scope.

(** ** Python floats *)

Module PyFloat.

(** A Python [float] is a binary64 number. *)
Definition float := spec_float.

Definition prec : Z := 53.
Definition emax : Z := 1024.

(** [x - y] on floats: IEEE 754 subtraction, rounded to nearest even. *)
Definition sub (x y : float) : float := SFsub prec emax x y.

(** The binary64 number nearest to [m * 2^e]. *)
Definition of_scaled (m e : Z) : float := binary_normalize prec emax m e false.

Definition is_finite (x : float) : bool :=
  match x with
  | S754_zero _ | S754_finite _ _ _ => true
  | S754_infinity _ | S754_nan => false
  end.

(** [x] is a finite number of magnitude less than [2^k]. *)
Definition below (k : Z) (x : float) : bool :=
  match x with
  | S754_zero _ => true
  | S754_finite _ m e => (Zpos (digits2_pos m) + e <=? k)%Z
  | S754_infinity _ | S754_nan => false
  end.

(** *** The format specification [.3f]

    CPython converts the exact value of the float to decimal and rounds
    it correctly (ties to even) to the requested number of fractional
    digits; infinities and NaN are spelled out. *)

(** [n / d] rounded to the nearest integer, ties to even ([0 <= n], [0 < d]). *)
Definition round_half_even (n d : Z) : Z :=
  let q := (n / d)%Z in
  let r := (n mod d)%Z in
  if (2 * r <? d)%Z then q
  else if (d <? 2 * r)%Z then (q + 1)%Z
  else if Z.even q then q else (q + 1)%Z.

(** [m * 2^e * 1000], rounded to an integer: the magnitude in thousandths. *)
Definition thousandths (m : positive) (e : Z) : Z :=
  if (0 <=? e)%Z then (Zpos m * 2 ^ e * 1000)%Z
  else round_half_even (Zpos m * 1000) (2 ^ (- e)).

Definition digit (d : Z) : ascii := ascii_of_nat (48 + Z.to_nat d).

(** Decimal numeral of a natural number, without leading zeros. *)
Definition decimal (n : Z) : string := NilZero.string_of_uint (N.to_uint (Z.to_N n)).

(** The three fractional digits of a magnitude given in thousandths. *)
Definition frac3 (n : Z) : string :=
  let r := (n mod 1000)%Z in
  String (digit (r / 100))
    (String (digit (r / 10 mod 10))
       (String (digit (r mod 10)) EmptyString)).

Definition sign (s : bool) : string := if s then "-" else "".

Definition fixed3 (s : bool) (n : Z) : string :=
  sign s ++ decimal (n / 1000) ++ "." ++ frac3 n.

(** [format(x, '.3f')] *)
Definition format_3f (x : float) : string :=
  match x with
  | S754_nan => "nan"
  | S754_infinity s => sign s ++ "inf"
  | S754_zero s => fixed3 s 0
  | S754_finite s m e => fixed3 s (thousandths m e)
  end.

(** *** Shape of a fixed-point numeral with three fractional digits *)

Definition is_digit (c : ascii) : bool :=
  let n := nat_of_ascii c in (48 <=? n)%nat && (n <=? 57)%nat.

Fixpoint all_digits (s : string) : bool :=
  match s with
  | EmptyString => true
  | String c s' => is_digit c && all_digits s'
  end.

(** [s] cut at its first ["."]: the text before it and the text after it. *)
Fixpoint split_point (s : string) : option (string * string) :=
  match s with
  | EmptyString => None
  | String c s' =>
      if Ascii.eqb c "." then Some (EmptyString, s')
      else match split_point s' with
           | Some (i, f) => Some (String c i, f)
           | None => None
           end
  end.

Definition drop_minus (s : string) : string :=
  match s with
  | String c s' => if Ascii.eqb c "-" then s' else s
  | EmptyString => s
  end.

(** [s] is an optional minus sign, at least one digit, a decimal point and
    exactly three digits after it. *)
Definition three_decimals (s : string) : bool :=
  match split_point (drop_minus s) with
  | Some (i, f) =>
      negb (String.length i =? 0)%nat && all_digits i
      && (String.length f =? 3)%nat && all_digits f
  | None => false
  end.

(** *** Reading a duration back *)

(** The sign bit of a float. *)
Definition sign_bit (x : float) : bool :=
  match x with
  | S754_zero s | S754_infinity s | S754_finite s _ _ => s
  | S754_nan => false
  end.

(** [x < y] on floats. *)
Definition lt (x y : float) : bool := SFltb x y.

(** A positive finite binary64 number, in canonical form. *)
Definition positive (x : float) : bool :=
  match x with
  | S754_finite false m e => bounded prec emax m e
  | _ => false
  end.

Definition starts_with_minus (s : string) : bool :=
  match s with
  | String c _ => Ascii.eqb c "-"
  | EmptyString => false
  end.

(** What a numeral with three fractional digits denotes: whether it has a
    minus sign, and its magnitude in thousandths. *)
Definition read_fixed3 (s : string) : option (bool * Z) :=
  match split_point (drop_minus s) with
  | Some (i, f) =>
      match NilEmpty.uint_of_string i, NilEmpty.uint_of_string f with
      | Some ui, Some uf =>
          if negb (String.length i =? 0)%nat && (String.length f =? 3)%nat
          then Some (starts_with_minus s,
                     (Z.of_N (N.of_uint ui) * 1000 + Z.of_N (N.of_uint uf))%Z)
          else None
      | _, _ => None
      end
  | None => None
  end.

(** [n] thousandths is the magnitude of [x] rounded to the nearest
    thousandth, ties to even: with [|x| = m * 2^e], the distance between
    [n] and [1000 * m * 2^e] is at most one half, both scaled by a power of
    two that makes them integers. *)
Definition nearest_thousandth (x : float) (n : Z) : Prop :=
  match x with
  | S754_zero _ => n = 0%Z
  | S754_finite _ m e =>
      let k := Z.max 0 (- e) in
      let err := Z.abs (n * 2 ^ k - 1000 * Zpos m * 2 ^ Z.max 0 e) in
      (0 <= n /\ 2 * err <= 2 ^ k /\ (2 * err = 2 ^ k -> Z.even n = true))%Z
  | S754_infinity _ | S754_nan => False
  end.

End PyFloat.

(** ** The run-time model *)

Section Runtime.

(** The event log object built by pm4py; the script never looks inside. *)
Variable Log : Type.
(** Python exceptions. *)
Variable Exn : Type.

(** What the process is started with and how the outside world answers:
    the command line, the environment variables, the value returned by the
    [n]-th call of [time()] (counting from zero), and the outcome of the two
    pm4py calls ([inl e], [Some e]: the call raises [e]).  In this model the
    console accepts every line; [Process] below lifts that. *)
Record env := {
  argv : list string;
  environ : list (string * string);
  clock : nat -> PyFloat.float;
  xes_import : string -> Exn + Log;
  xes_export : Log -> string -> option Exn
}.

(** What a run does, as seen from outside. *)
Inductive event :=
| EvPrint (line : string)
| EvTime (t : PyFloat.float)
| EvImport (path : string) (r : Exn + Log)
| EvExport (log : Log) (path : string) (r : option Exn).

Record state := { ticks : nat; trace : list event }.

Definition emit (ev : event) (st : state) : state :=
  {| ticks := ticks st; trace := trace st ++ [ev] |}.

Inductive outcome (A : Type) :=
| Returned (a : A)
| Raised (e : Exn).
Arguments Returned {A} a.
Arguments Raised {A} e.

(** Computations: read the environment, extend the trace, return or raise. *)
Definition M (A : Type) := env -> state -> outcome A * state.

Definition ret {A} (a : A) : M A := fun _ st => (Returned a, st).

(** Sequencing: an exception raised by [c] skips [k]. *)
Definition bind {A B} (c : M A) (k : A -> M B) : M B :=
  fun w st =>
    match c w st with
    | (Returned a, st') => k a w st'
    | (Raised e, st') => (Raised e, st')
    end.

(** [print(s)], on a console that accepts the line.  A console that refuses
    it is part of [Process] below. *)
Definition print (s : string) : M unit :=
  fun _ st => (Returned tt, emit (EvPrint s) st).

(** [time()] *)
Definition time : M PyFloat.float :=
  fun w st =>
    let t := clock w (ticks st) in
    (Returned t, {| ticks := S (ticks st); trace := trace st ++ [EvTime t] |}).

(** [xes_import_factory.apply(path)] *)
Definition xes_import_factory_apply (path : string) : M Log :=
  fun w st =>
    let r := xes_import w path in
    (match r with inr l => Returned l | inl e => Raised e end,
     emit (EvImport path r) st).

(** [xes_exporter.export_log(log, path)] *)
Definition xes_exporter_export_log (log : Log) (path : string) : M unit :=
  fun w st =>
    let r := xes_export w log path in
    (match r with None => Returned tt | Some e => Raised e end,
     emit (EvExport log path r) st).

(** How the interpreter leaves the module body. *)
Inductive termination :=
| Normal
| Uncaught (e : Exn).

Record run_result := { status : termination; events : list event }.

Definition run (body : M unit) (w : env) : run_result :=
  match body w {| ticks := 0; trace := [] |} with
  | (Returned _, st) => {| status := Normal; events := trace st |}
  | (Raised e, st) => {| status := Uncaught e; events := trace st |}
  end.

End Runtime.

Arguments Returned {Exn A} a.
Arguments Raised {Exn A} e.
Arguments EvPrint {Log Exn} line.
Arguments EvTime {Log Exn} t.
Arguments EvImport {Log Exn} path r.
Arguments EvExport {Log Exn} log path r.
Arguments Normal {Exn}.
Arguments Uncaught {Exn} e.
Arguments ret {Log Exn A} a.
Arguments bind {Log Exn A B} c k.
Arguments print {Log Exn} s.
Arguments time {Log Exn}.
Arguments xes_import_factory_apply {Log Exn} path.
Arguments xes_exporter_export_log {Log Exn} log path.
Arguments run {Log Exn} body w.
Arguments status {Log Exn} r.
Arguments events {Log Exn} r.
Arguments argv {Log Exn} e.
Arguments environ {Log Exn} e.
Arguments clock {Log Exn} e.
Arguments xes_import {Log Exn} e.
Arguments xes_export {Log Exn} e.

Declare Scope py_scope.
Delimit Scope py_scope with py.
Notation "x <- c ;; k" := (bind c (fun x => k))
  (at level 61, c at next level, right associativity) : py_scope.
Notation "c ;; k" := (bind c (fun _ => k))
  (at level 61, right associativity) : py_scope.

(** ** The script *)

Section Script.

Context {Log Exn : Type}.

Definition in_path : string := "../static/xes/book/bigger-example.xes".
Definition out_path : string := "/tmp/out.xes".

Definition main : M Log Exn unit :=
  (print (in_path ++ " --> " ++ out_path) ;;
   t_s <- time ;;
   log <- xes_import_factory_apply in_path ;;
   t_m <- time ;;
   xes_exporter_export_log log out_path ;;
   t_e <- time ;;
   print ("read in " ++ PyFloat.format_3f (PyFloat.sub t_m t_s)
          ++ "s, wrote in " ++ PyFloat.format_3f (PyFloat.sub t_e t_m) ++ "s"))%py.

End Script.

(** ** Observations on a run *)

(** The kind of operation behind an event. *)
Inductive op := OpPrint | OpTime | OpImport | OpExport.

Definition op_eqb (a b : op) : bool :=
  match a, b with
  | OpPrint, OpPrint | OpTime, OpTime
  | OpImport, OpImport | OpExport, OpExport => true
  | _, _ => false
  end.

(** How often an operation occurs. *)
Definition count_op (o : op) (l : list op) : nat :=
  List.length (filter (op_eqb o) l).

(** The operations other than printing. *)
Definition calls (l : list op) : list op :=
  filter (fun o => negb (op_eqb o OpPrint)) l.

(** The last element of a list. *)
Fixpoint final {A} (l : list A) : option A :=
  match l with
  | [] => None
  | [a] => Some a
  | _ :: l' => final l'
  end.

(** The operations of the script, in program order. *)
Definition script_ops : list op :=
  [OpPrint; OpTime; OpImport; OpTime; OpExport; OpTime; OpPrint].

(** The body as the specification words it: import, timestamp, export,
    timestamp. *)
Definition spec_four_operations : list op :=
  [OpImport; OpTime; OpExport; OpTime].

Section Observations.

Context {Log Exn : Type}.

(** The lines written to the console, in order. *)
Fixpoint stdout (tr : list (event Log Exn)) : list string :=
  match tr with
  | [] => []
  | EvPrint s :: tr' => s :: stdout tr'
  | _ :: tr' => stdout tr'
  end.

(** The clock samples taken, in order. *)
Fixpoint samples (tr : list (event Log Exn)) : list PyFloat.float :=
  match tr with
  | [] => []
  | EvTime t :: tr' => t :: samples tr'
  | _ :: tr' => samples tr'
  end.

Definition op_of (ev : event Log Exn) : op :=
  match ev with
  | EvPrint _ => OpPrint
  | EvTime _ => OpTime
  | EvImport _ _ => OpImport
  | EvExport _ _ _ => OpExport
  end.

Definition ops (tr : list (event Log Exn)) : list op := map op_of tr.

(** The log objects an event carries. *)
Definition logs_of (ev : event Log Exn) : list Log :=
  match ev with
  | EvImport _ (inr l) => [l]
  | EvExport l _ _ => [l]
  | _ => []
  end.

(** The exception a library call ended with. *)
Definition raised_by (ev : event Log Exn) : option Exn :=
  match ev with
  | EvImport _ (inl e) => Some e
  | EvExport _ _ (Some e) => Some e
  | _ => None
  end.

(** The exception the last operation of a run ended with. *)
Definition raised (tr : list (event Log Exn)) : option Exn :=
  match final tr with
  | Some ev => raised_by ev
  | None => None
  end.

(** An event touches no file but the two of the script and writes
    nowhere but to the console and the output file. *)
Definition fixed_paths (ev : event Log Exn) : Prop :=
  match ev with
  | EvImport p _ => p = in_path
  | EvExport _ p _ => p = out_path
  | EvPrint _ | EvTime _ => True
  end.

(** The three ways a run of the script can go. *)
Variant run_shape (w : env Log Exn) : run_result Log Exn -> Prop :=
| ImportRaises e :
    xes_import w in_path = inl e ->
    run_shape w
      {| status := Uncaught e;
         events := [EvPrint (in_path ++ " --> " ++ out_path);
                    EvTime (clock w 0); EvImport in_path (inl e)] |}
| ExportRaises l e :
    xes_import w in_path = inr l ->
    xes_export w l out_path = Some e ->
    run_shape w
      {| status := Uncaught e;
         events := [EvPrint (in_path ++ " --> " ++ out_path);
                    EvTime (clock w 0); EvImport in_path (inr l);
                    EvTime (clock w 1); EvExport l out_path (Some e)] |}
| Succeeds l :
    xes_import w in_path = inr l ->
    xes_export w l out_path = None ->
    run_shape w
      {| status := Normal;
         events := [EvPrint (in_path ++ " --> " ++ out_path);
                    EvTime (clock w 0); EvImport in_path (inr l);
                    EvTime (clock w 1); EvExport l out_path None;
                    EvTime (clock w 2);
                    EvPrint ("read in "
                             ++ PyFloat.format_3f (PyFloat.sub (clock w 1) (clock w 0))
                             ++ "s, wrote in "
                             ++ PyFloat.format_3f (PyFloat.sub (clock w 2) (clock w 1))
                             ++ "s")] |}.

End Observations.


(** ** Sample worlds *)

(** In the sample worlds a log object is named by a number and an exception
    by its class. *)
Module Sample.

(** A clock that starts at 1700000000.25 and advances by 2.5 s per call. *)
Definition tick (n : nat) : PyFloat.float :=
  PyFloat.of_scaled (6800000001 + 10 * Z.of_nat n) (-2).

(** The input file is there and both calls succeed; each takes 2.5 s. *)
Definition ok : env nat string :=
  {| argv := ["main.py"]; environ := [];
     clock := tick;
     xes_import := fun p =>
       if String.eqb p in_path then inr 7%nat else inl "FileNotFoundError";
     xes_export := fun _ _ => None |}.

(** As [ok], started with other arguments and other environment variables,
    and in a file system that holds a second log. *)
Definition ok_elsewhere : env nat string :=
  {| argv := ["main.py"; "other.xes"; "/tmp/other.xes"];
     environ := [("IN_PATH", "other.xes"); ("OUT_PATH", "/tmp/other.xes")];
     clock := tick;
     xes_import := fun p =>
       if String.eqb p in_path then inr 7%nat
       else if String.eqb p "other.xes" then inr 9%nat
       else inl "FileNotFoundError";
     xes_export := fun _ p =>
       if String.eqb p out_path then None else Some "PermissionError" |}.

(** The input file is missing. *)
Definition no_input : env nat string :=
  {| argv := ["main.py"]; environ := [];
     clock := tick;
     xes_import := fun _ => inl "FileNotFoundError";
     xes_export := fun _ _ => None |}.

(** The output file cannot be written. *)
Definition no_output : env nat string :=
  {| argv := ["main.py"]; environ := [];
     clock := tick;
     xes_import := fun p =>
       if String.eqb p in_path then inr 7%nat else inl "FileNotFoundError";
     xes_export := fun _ _ => Some "PermissionError" |}.

(** As [ok], with a clock that does not advance. *)
Definition stalled : env nat string :=
  {| argv := ["main.py"]; environ := [];
     clock := fun _ => tick 0;
     xes_import := xes_import ok;
     xes_export := xes_export ok |}.

(** As [ok], with a clock that is set back by half a second at each call. *)
Definition steps_back : env nat string :=
  {| argv := ["main.py"]; environ := [];
     clock := fun n => PyFloat.of_scaled (6800000001 - 2 * Z.of_nat n) (-2);
     xes_import := xes_import ok;
     xes_export := xes_export ok |}.



End Sample.

(** ** The whole process

    The model above runs the body on a console that accepts every line.
    This one follows the file from its first statement to the exit of the
    interpreter: the [import] statements of lines 2-4 may raise, [print] may
    raise, flushing the console when the interpreter shuts down may fail,
    and the exit status is the interpreter's.  Programs are trees of calls,
    so that what a program is built from can be stated; [Try] is Python's
    [try: ... except e: ...], which the script does not use. *)

Module Process.

Section Process.

Variable Log : Type.
Variable Exn : Type.

(** The outside world of the body, and besides: the outcome of the [import]
    statements of lines 2-4 taken together ([Some e]: one of them raises
    [e]); the outcome of the [n]-th call of [print], counting from zero
    ([Some e]: it raises [e] and the line is not written); whether the
    console is flushed without error when the interpreter shuts down; and
    the status the interpreter exits with after an uncaught exception (one
    after the traceback of an ordinary exception, the code carried by a
    [SystemExit]). *)
Record host := {
  outside : env Log Exn;
  modules : option Exn;
  console : nat -> string -> option Exn;
  flushes : bool;
  exit_code : Exn -> Z
}.

(** The calls a program makes to the outside. *)
Inductive call : Type -> Type :=
| CLoad : call unit
| CPrint (s : string) : call unit
| CTime : call PyFloat.float
| CImport (path : string) : call Log
| CExport (log : Log) (path : string) : call unit.

(** Programs. *)
Inductive prog : Type -> Type :=
| Ret {A} (a : A) : prog A
| Call {A} (c : call A) : prog A
| Bind {A B} (p : prog A) (k : A -> prog B) : prog B
| Try {A} (p : prog A) (handler : Exn -> prog A) : prog A.

(** The journal of a run: every call made, with its outcome. *)
Inductive entry :=
| JLoad (r : option Exn)
| JPrint (line : string) (r : option Exn)
| JTime (t : PyFloat.float)
| JImport (path : string) (r : Exn + Log)
| JExport (log : Log) (path : string) (r : option Exn).

Record pstate := { clock_reads : nat; prints : nat; written : list entry }.

Definition note (j : entry) (st : pstate) : pstate :=
  {| clock_reads := clock_reads st; prints := prints st;
     written := written st ++ [j] |}.

Definition returned_or_raised (r : option Exn) : outcome Exn unit :=
  match r with
  | None => Returned tt
  | Some e => Raised e
  end.

(** One call: ask the host, note the call and its outcome, return or raise. *)
Definition perform {A} (c : call A) (h : host) (st : pstate)
    : outcome Exn A * pstate :=
  match c in call T return outcome Exn T * pstate with
  | CLoad =>
      let r := modules h in
      (returned_or_raised r, note (JLoad r) st)
  | CPrint s =>
      let r := console h (prints st) s in
      (returned_or_raised r,
       {| clock_reads := clock_reads st; prints := S (prints st);
          written := written st ++ [JPrint s r] |})
  | CTime =>
      let t := clock (outside h) (clock_reads st) in
      (Returned t,
       {| clock_reads := S (clock_reads st); prints := prints st;
          written := written st ++ [JTime t] |})
  | CImport path =>
      let r := xes_import (outside h) path in
      (match r with inr l => Returned l | inl e => Raised e end,
       note (JImport path r) st)
  | CExport log path =>
      let r := xes_export (outside h) log path in
      (returned_or_raised r, note (JExport log path r) st)
  end.

(** Running a program: an exception skips the rest of a sequence, up to the
    nearest enclosing handler. *)
Fixpoint exec {A} (p : prog A) (h : host) (st : pstate)
    : outcome Exn A * pstate :=
  match p with
  | Ret a => (Returned a, st)
  | Call c => perform c h st
  | Bind p1 k =>
      match exec p1 h st with
      | (Returned a, st') => exec (k a) h st'
      | (Raised e, st') => (Raised e, st')
      end
  | Try p1 handler =>
      match exec p1 h st with
      | (Returned a, st') => (Returned a, st')
      | (Raised e, st') => exec (handler e) h st'
      end
  end.

Record result := { ended : termination Exn; journal : list entry }.

Definition run (p : prog unit) (h : host) : result :=
  match exec p h {| clock_reads := 0; prints := 0; written := [] |} with
  | (Returned _, st) => {| ended := Normal; journal := written st |}
  | (Raised e, st) => {| ended := Uncaught e; journal := written st |}
  end.

(** Exit status of the interpreter: 120 when the console cannot be flushed
    at shutdown; otherwise zero after the last statement, and the status of
    the exception after an uncaught exception. *)
Definition exit_status (h : host) (r : result) : Z :=
  if flushes h then
    match ended r with
    | Normal => 0
    | Uncaught e => exit_code h e
    end
  else 120.

(** *** Observations on a journal *)

(** The kinds of call. *)
Inductive kind := KLoad | KPrint | KTime | KImport | KExport.

Definition kind_of_call {A} (c : call A) : kind :=
  match c with
  | CLoad => KLoad
  | CPrint _ => KPrint
  | CTime => KTime
  | CImport _ => KImport
  | CExport _ _ => KExport
  end.

Definition kind_of (j : entry) : kind :=
  match j with
  | JLoad _ => KLoad
  | JPrint _ _ => KPrint
  | JTime _ => KTime
  | JImport _ _ => KImport
  | JExport _ _ _ => KExport
  end.

Definition kinds (js : list entry) : list kind := map kind_of js.

Definition kind_eqb (a b : kind) : bool :=
  match a, b with
  | KLoad, KLoad | KPrint, KPrint | KTime, KTime
  | KImport, KImport | KExport, KExport => true
  | _, _ => false
  end.

Definition count_kind (k : kind) (l : list kind) : nat :=
  List.length (filter (kind_eqb k) l).

(** The exception a call ended with. *)
Definition failure (j : entry) : option Exn :=
  match j with
  | JLoad r | JPrint _ r | JExport _ _ r => r
  | JImport _ (inl e) => Some e
  | JImport _ (inr _) | JTime _ => None
  end.

(** The exception the last call of a journal ended with. *)
Definition last_failure (js : list entry) : option Exn :=
  match final js with
  | Some j => failure j
  | None => None
  end.

(** What a journal shows on the outside, as events of the body: the
    module imports and the prints that raised show nothing. *)
Definition shown (j : entry) : list (event Log Exn) :=
  match j with
  | JLoad _ | JPrint _ (Some _) => []
  | JPrint s None => [EvPrint s]
  | JTime t => [EvTime t]
  | JImport p r => [EvImport p r]
  | JExport l p r => [EvExport l p r]
  end.

Definition visible (js : list entry) : list (event Log Exn) :=
  flat_map shown js.

(** *** Straight-line programs

    [straight ks p]: [p] is a sequence of calls of the kinds [ks], in that
    order, whatever the calls return; it has no handler. *)
Inductive straight : forall A, list kind -> prog A -> Prop :=
| straight_ret A (a : A) : straight A [] (Ret a)
| straight_call A (c : call A) : straight A [kind_of_call c] (Call c)
| straight_bind A B (p : prog A) (k : A -> prog B) ks1 ks2 :
    straight A ks1 p ->
    (forall a, straight B ks2 (k a)) ->
    straight B (ks1 ++ ks2) (Bind p k).

End Process.

Arguments outside {Log Exn} h.
Arguments modules {Log Exn} h.
Arguments console {Log Exn} h.
Arguments flushes {Log Exn} h.
Arguments exit_code {Log Exn} h.
Arguments CLoad {Log}.
Arguments CPrint {Log} s.
Arguments CTime {Log}.
Arguments CImport {Log} path.
Arguments CExport {Log} log path.
Arguments Ret {Log Exn A} a.
Arguments Call {Log Exn A} c.
Arguments Bind {Log Exn A B} p k.
Arguments Try {Log Exn A} p handler.
Arguments JLoad {Log Exn} r.
Arguments JPrint {Log Exn} line r.
Arguments JTime {Log Exn} t.
Arguments JImport {Log Exn} path r.
Arguments JExport {Log Exn} log path r.
Arguments clock_reads {Log Exn} p.
Arguments prints {Log Exn} p.
Arguments written {Log Exn} p.
Arguments note {Log Exn} j st.
Arguments returned_or_raised {Exn} r.
Arguments exec {Log Exn A} p h st.
Arguments perform {Log Exn A} c h st.
Arguments run {Log Exn} p h.
Arguments ended {Log Exn} r.
Arguments journal {Log Exn} r.
Arguments exit_status {Log Exn} h r.
Arguments kind_of_call {Log A} c.
Arguments kind_of {Log Exn} j.
Arguments kinds {Log Exn} js.
Arguments failure {Log Exn} j.
Arguments last_failure {Log Exn} js.
Arguments shown {Log Exn} j.
Arguments visible {Log Exn} js.
Arguments straight {Log Exn A} ks p.

Declare Scope proc_scope.
Delimit Scope proc_scope with proc.
Notation "x <- c ;; k" := (Bind c (fun x => k))
  (at level 61, c at next level, right associativity) : proc_scope.
Notation "c ;; k" := (Bind c (fun _ => k))
  (at level 61, right associativity) : proc_scope.

Section Script.

Context {Log Exn : Type}.

(** Lines 2-4: [from time import time] and the two [from pm4py... import]. *)
Definition import_modules : prog Log Exn unit := Call CLoad.

(** [print(s)] *)
Definition print (s : string) : prog Log Exn unit := Call (CPrint s).

(** [time()] *)
Definition time : prog Log Exn PyFloat.float := Call CTime.

(** [xes_import_factory.apply(path)] *)
Definition xes_import_factory_apply (path : string) : prog Log Exn Log :=
  Call (CImport path).

(** [xes_exporter.export_log(log, path)] *)
Definition xes_exporter_export_log (log : Log) (path : string)
    : prog Log Exn unit :=
  Call (CExport log path).

(** The file, from its first statement to its last. *)
Definition script : prog Log Exn unit :=
  (import_modules ;;
   print (in_path ++ " --> " ++ out_path) ;;
   t_s <- time ;;
   log <- xes_import_factory_apply in_path ;;
   t_m <- time ;;
   xes_exporter_export_log log out_path ;;
   t_e <- time ;;
   print ("read in " ++ PyFloat.format_3f (PyFloat.sub t_m t_s)
          ++ "s, wrote in " ++ PyFloat.format_3f (PyFloat.sub t_e t_m) ++ "s"))%proc.

(** The calls of the file, in the order of its lines. *)
Definition script_kinds : list kind :=
  [KLoad; KPrint; KTime; KImport; KTime; KExport; KTime; KPrint].

(** The six ways a run of the file can go: each statement that can raise
    stops the run, and when none does the run is complete. *)
Variant script_run (h : host Log Exn) : result Log Exn -> Prop :=
| LoadRaises e :
    modules h = Some e ->
    script_run h {| ended := Uncaught e; journal := [JLoad (Some e)] |}
| HeaderRaises e :
    modules h = None ->
    console h 0 (in_path ++ " --> " ++ out_path) = Some e ->
    script_run h
      {| ended := Uncaught e;
         journal := [JLoad None;
                     JPrint (in_path ++ " --> " ++ out_path) (Some e)] |}
| ImportRaises e :
    modules h = None ->
    console h 0 (in_path ++ " --> " ++ out_path) = None ->
    xes_import (outside h) in_path = inl e ->
    script_run h
      {| ended := Uncaught e;
         journal := [JLoad None;
                     JPrint (in_path ++ " --> " ++ out_path) None;
                     JTime (clock (outside h) 0);
                     JImport in_path (inl e)] |}
| ExportRaises l e :
    modules h = None ->
    console h 0 (in_path ++ " --> " ++ out_path) = None ->
    xes_import (outside h) in_path = inr l ->
    xes_export (outside h) l out_path = Some e ->
    script_run h
      {| ended := Uncaught e;
         journal := [JLoad None;
                     JPrint (in_path ++ " --> " ++ out_path) None;
                     JTime (clock (outside h) 0);
                     JImport in_path (inr l);
                     JTime (clock (outside h) 1);
                     JExport l out_path (Some e)] |}
| TimingRaises l e :
    modules h = None ->
    console h 0 (in_path ++ " --> " ++ out_path) = None ->
    xes_import (outside h) in_path = inr l ->
    xes_export (outside h) l out_path = None ->
    console h 1
      ("read in "
       ++ PyFloat.format_3f
            (PyFloat.sub (clock (outside h) 1) (clock (outside h) 0))
       ++ "s, wrote in "
       ++ PyFloat.format_3f
            (PyFloat.sub (clock (outside h) 2) (clock (outside h) 1))
       ++ "s") = Some e ->
    script_run h
      {| ended := Uncaught e;
         journal := [JLoad None;
                     JPrint (in_path ++ " --> " ++ out_path) None;
                     JTime (clock (outside h) 0);
                     JImport in_path (inr l);
                     JTime (clock (outside h) 1);
                     JExport l out_path None;
                     JTime (clock (outside h) 2);
                     JPrint
                       ("read in "
                        ++ PyFloat.format_3f
                             (PyFloat.sub (clock (outside h) 1)
                                          (clock (outside h) 0))
                        ++ "s, wrote in "
                        ++ PyFloat.format_3f
                             (PyFloat.sub (clock (outside h) 2)
                                          (clock (outside h) 1))
                        ++ "s") (Some e)] |}
| Completes l :
    modules h = None ->
    console h 0 (in_path ++ " --> " ++ out_path) = None ->
    xes_import (outside h) in_path = inr l ->
    xes_export (outside h) l out_path = None ->
    console h 1
      ("read in "
       ++ PyFloat.format_3f
            (PyFloat.sub (clock (outside h) 1) (clock (outside h) 0))
       ++ "s, wrote in "
       ++ PyFloat.format_3f
            (PyFloat.sub (clock (outside h) 2) (clock (outside h) 1))
       ++ "s") = None ->
    script_run h
      {| ended := Normal;
         journal := [JLoad None;
                     JPrint (in_path ++ " --> " ++ out_path) None;
                     JTime (clock (outside h) 0);
                     JImport in_path (inr l);
                     JTime (clock (outside h) 1);
                     JExport l out_path None;
                     JTime (clock (outside h) 2);
                     JPrint
                       ("read in "
                        ++ PyFloat.format_3f
                             (PyFloat.sub (clock (outside h) 1)
                                          (clock (outside h) 0))
                        ++ "s, wrote in "
                        ++ PyFloat.format_3f
                             (PyFloat.sub (clock (outside h) 2)
                                          (clock (outside h) 1))
                        ++ "s") None] |}.

End Script.

End Process.

(** ** Sample hosts *)

Module Host.

(** A console that takes every line, in the world [Sample.ok]. *)
Definition working : Process.host nat string :=
  {| Process.outside := Sample.ok;
     Process.modules := None;
     Process.console := fun _ _ => None;
     Process.flushes := true;
     Process.exit_code := fun _ => 1%Z |}.

(** Standard output is a full device behind a buffer: [print] returns, and
    the flush at shutdown fails. *)
Definition full_device : Process.host nat string :=
  {| Process.outside := Sample.ok;
     Process.modules := None;
     Process.console := fun _ _ => None;
     Process.flushes := false;
     Process.exit_code := fun _ => 1%Z |}.

(** Standard output is a full device and is not buffered: [print] raises. *)
Definition full_device_unbuffered : Process.host nat string :=
  {| Process.outside := Sample.ok;
     Process.modules := None;
     Process.console := fun _ _ => Some "OSError";
     Process.flushes := true;
     Process.exit_code := fun _ => 1%Z |}.

(** Standard output is a pipe, not buffered, whose reader goes away after
    the first line. *)
Definition closing_pipe : Process.host nat string :=
  {| Process.outside := Sample.ok;
     Process.modules := None;
     Process.console := fun n _ =>
       match n with O => None | S _ => Some "BrokenPipeError" end;
     Process.flushes := true;
     Process.exit_code := fun _ => 1%Z |}.

(** pm4py is not installed. *)
Definition no_pm4py : Process.host nat string :=
  {| Process.outside := Sample.ok;
     Process.modules := Some "ModuleNotFoundError";
     Process.console := fun _ _ => None;
     Process.flushes := true;
     Process.exit_code := fun _ => 1%Z |}.

(** The output file cannot be written. *)
Definition no_output : Process.host nat string :=
  {| Process.outside := Sample.no_output;
     Process.modules := None;
     Process.console := fun _ _ => None;
     Process.flushes := true;
     Process.exit_code := fun _ => 1%Z |}.

End Host.

(** ** Proof steps *)

(** [split_run H], for [H] a proof that a run has one of its three shapes:
    one goal per shape, without the shapes that contradict what is known of
    the outside world. *)
Ltac split_run H :=
  destruct H;
  repeat match goal with
    | H1 : ?x = _, H2 : ?x = _ |- _ =>
        rewrite H1 in H2; first [discriminate H2 | injection H2 as H2; subst]
    end;
  cbn [status events].

(** ** Facts on binary64 subtraction *)

Module PyFloatFacts.

Import PyFloat.
Local Open Scope Z_scope.

Lemma digits2_pos_size p : digits2_pos p = Pos.size p.
Proof. induction p; simpl; congruence. Qed.

Lemma Zdigits2_nonneg n : 0 <= Zdigits2 n.
Proof. destruct n; simpl; lia. Qed.

Lemma Zdigits2_opp n : Zdigits2 (- n) = Zdigits2 n.
Proof. now destruct n. Qed.

Lemma Zdigits2_log2 n : 0 < n -> Zdigits2 n = Z.log2 n + 1.
Proof.
  destruct n as [| p | p]; try lia. intros _. simpl.
  rewrite digits2_pos_size. destruct p; simpl; lia.
Qed.

Lemma Zdigits2_abs n : Zdigits2 (Z.abs n) = Zdigits2 n.
Proof. now destruct n. Qed.

(** [|n| < 2 ^ digits n] *)
Lemma Zdigits2_gt n : Z.abs n < 2 ^ Zdigits2 n.
Proof.
  rewrite <- Zdigits2_abs.
  destruct (Z.eq_dec n 0) as [-> | Hn]; [reflexivity |].
  assert (H : 0 < Z.abs n) by lia.
  rewrite (Zdigits2_log2 _ H).
  apply (Z.log2_spec _ H).
Qed.

Lemma Zdigits2_le n k : 0 <= k -> Z.abs n < 2 ^ k -> Zdigits2 n <= k.
Proof.
  intros Hk Hn. rewrite <- Zdigits2_abs.
  destruct (Z.eq_dec n 0) as [-> | Hz]; [exact Hk |].
  assert (H : 0 < Z.abs n) by lia.
  rewrite (Zdigits2_log2 _ H).
  apply (Z.log2_lt_pow2 _ _ H) in Hn. lia.
Qed.

(** A sum or difference has at most one digit more than its operands. *)
Lemma Zdigits2_sub a b :
  Zdigits2 (a - b) <= Z.max (Zdigits2 a) (Zdigits2 b) + 1.
Proof.
  pose proof (Zdigits2_gt a) as Ha. pose proof (Zdigits2_gt b) as Hb.
  pose proof (Zdigits2_nonneg a) as Na. pose proof (Zdigits2_nonneg b) as Nb.
  set (k := Z.max (Zdigits2 a) (Zdigits2 b)).
  assert (Hka : 2 ^ Zdigits2 a <= 2 ^ k) by (apply Z.pow_le_mono_r; lia).
  assert (Hkb : 2 ^ Zdigits2 b <= 2 ^ k) by (apply Z.pow_le_mono_r; lia).
  apply Zdigits2_le; [lia |].
  rewrite Z.pow_add_r by lia. change (2 ^ 1) with 2. lia.
Qed.

Lemma Zdigits2_succ n : 0 <= n -> Zdigits2 (n + 1) <= Zdigits2 n + 1.
Proof.
  intros Hn. replace (n + 1) with (n - (-1)) by lia.
  pose proof (Zdigits2_sub n (-1)) as H. simpl (Zdigits2 (-1)) in H.
  pose proof (Zdigits2_nonneg n).
  destruct (Z.eq_dec n 0) as [-> | Hz]; [simpl; lia |].
  assert (1 <= Zdigits2 n) by (rewrite Zdigits2_log2 by lia; pose proof (Z.log2_nonneg n); lia).
  lia.
Qed.

Lemma cond_Zopp_digits s m : Zdigits2 (cond_Zopp s m) = Zdigits2 m.
Proof. destruct s; simpl; [apply Zdigits2_opp | reflexivity]. Qed.

(** Shifting the mantissa left keeps the position of the leading bit. *)
Lemma iter_xO_digits d m :
  Zpos (digits2_pos (Pos.iter xO m d)) = Zpos (digits2_pos m) + Zpos d.
Proof.
  revert m. induction d using Pos.peano_ind; intros m.
  - simpl. lia.
  - rewrite Pos.iter_succ. simpl. rewrite Pos2Z.inj_succ, IHd. lia.
Qed.

Lemma shl_align_digits m e e' :
  Zpos (digits2_pos (fst (shl_align m e e'))) + snd (shl_align m e e')
    = Zpos (digits2_pos m) + e
  /\ snd (shl_align m e e') = Z.min e e'.
Proof.
  unfold shl_align.
  destruct (e' - e) as [| d | d] eqn:Hd; cbn [fst snd].
  - lia.
  - lia.
  - rewrite iter_xO_digits. lia.
Qed.

(** Shifting right by one bit drops one digit. *)
Lemma shr_1_digits mrs :
  0 <= shr_m mrs ->
  0 <= shr_m (shr_1 mrs)
  /\ Zdigits2 (shr_m (shr_1 mrs)) = Z.max 0 (Zdigits2 (shr_m mrs) - 1).
Proof.
  destruct mrs as [m r s]. cbn [shr_m]. intros Hm.
  destruct m as [| [p | p |] | p];
    cbn [shr_1 shr_m Zdigits2 digits2_pos];
    rewrite ?Pos2Z.inj_succ; lia.
Qed.

Lemma iter_shr_1_digits p : forall mrs,
  0 <= shr_m mrs ->
  0 <= shr_m (iter_pos shr_1 p mrs)
  /\ Zdigits2 (shr_m (iter_pos shr_1 p mrs))
     = Z.max 0 (Zdigits2 (shr_m mrs) - Zpos p).
Proof.
  induction p as [p IH | p IH |]; intros mrs Hm; simpl iter_pos.
  - destruct (shr_1_digits mrs Hm) as [H1 E1].
    destruct (IH _ H1) as [H2 E2]. destruct (IH _ H2) as [H3 E3].
    split; [exact H3 |]. rewrite E3, E2, E1. lia.
  - destruct (IH _ Hm) as [H2 E2]. destruct (IH _ H2) as [H3 E3].
    split; [exact H3 |]. rewrite E3, E2. lia.
  - destruct (shr_1_digits mrs Hm) as [H1 E1]. split; [exact H1 |].
    rewrite E1. lia.
Qed.

Lemma shr_digits mrs e n :
  0 <= shr_m mrs ->
  0 <= shr_m (fst (shr mrs e n))
  /\ Zdigits2 (shr_m (fst (shr mrs e n)))
     = Z.max 0 (Zdigits2 (shr_m mrs) - Z.max 0 n)
  /\ snd (shr mrs e n) = e + Z.max 0 n.
Proof.
  intros Hm. pose proof (Zdigits2_nonneg (shr_m mrs)).
  destruct n as [| p | p]; cbn [shr fst snd].
  - split; [| split]; lia.
  - destruct (iter_shr_1_digits p mrs Hm) as [H1 E1].
    split; [exact H1 | split; [rewrite E1 |]]; lia.
  - split; [| split]; lia.
Qed.

Lemma shr_record_of_loc_m m l : shr_m (shr_record_of_loc m l) = m.
Proof. destruct l as [| []]; reflexivity. Qed.

Lemma round_nearest_even_bounds m l :
  0 <= m ->
  0 <= round_nearest_even m l
  /\ Zdigits2 (round_nearest_even m l) <= Zdigits2 m + 1.
Proof.
  intros Hm. pose proof (Zdigits2_succ m Hm).
  unfold round_nearest_even.
  destruct l as [| []]; try destruct (Z.even m); split; lia.
Qed.

(** Rounding a number below [2^1023] to binary64 does not overflow. *)
Lemma binary_round_aux_finite s m e l :
  0 <= m ->
  Zdigits2 m + e <= 1023 ->
  e <= fexp prec emax (Zdigits2 m + e) ->
  is_finite (binary_round_aux prec emax s m e l) = true.
Proof.
  intros Hm HD He. unfold binary_round_aux, shr_fexp.
  set (n := fexp prec emax (Zdigits2 m + e) - e).
  pose proof (shr_digits (shr_record_of_loc m l) e n) as H1.
  rewrite shr_record_of_loc_m in H1. specialize (H1 Hm).
  destruct (shr (shr_record_of_loc m l) e n) as [mrs1 e1].
  cbn [fst snd] in H1. destruct H1 as (P1 & D1 & E1).
  destruct (round_nearest_even_bounds (shr_m mrs1) (loc_of_shr_record mrs1) P1)
    as [P2 D2].
  set (m1 := round_nearest_even (shr_m mrs1) (loc_of_shr_record mrs1)) in *.
  set (n2 := fexp prec emax (Zdigits2 m1 + e1) - e1).
  pose proof (shr_digits (shr_record_of_loc m1 loc_Exact) e1 n2) as H3.
  rewrite shr_record_of_loc_m in H3. specialize (H3 P2).
  destruct (shr (shr_record_of_loc m1 loc_Exact) e1 n2) as [mrs2 e2].
  cbn [fst snd] in H3. destruct H3 as (P3 & D3 & E3).
  destruct (shr_m mrs2) as [| p | p]; [reflexivity | | lia].
  assert (Hle : e2 <= emax - prec).
  { subst n n2. unfold fexp, emin, prec, emax in *. lia. }
  apply Z.leb_le in Hle. rewrite Hle. reflexivity.
Qed.

Lemma binary_round_finite s m e :
  Zpos (digits2_pos m) + e <= 1023 ->
  is_finite (binary_round prec emax s m e) = true.
Proof.
  intros HD. unfold binary_round.
  destruct (shl_align_digits m e (fexp prec emax (Zpos (digits2_pos m) + e)))
    as [Hd He].
  destruct (shl_align m e (fexp prec emax (Zpos (digits2_pos m) + e)))
    as [mz ez].
  cbn [fst snd] in Hd, He.
  apply binary_round_aux_finite; cbn [Zdigits2]; try lia.
  rewrite Hd. lia.
Qed.

Lemma binary_normalize_finite m e :
  Zdigits2 m + e <= 1023 ->
  is_finite (binary_normalize prec emax m e false) = true.
Proof.
  destruct m as [| p | p]; cbn [binary_normalize Zdigits2]; intros HD.
  - reflexivity.
  - now apply binary_round_finite.
  - now apply binary_round_finite.
Qed.

(** The difference of two finite numbers below [2^1022] is finite. *)
Lemma sub_finite x y :
  below 1022 x = true -> below 1022 y = true ->
  is_finite (sub x y) = true.
Proof.
  destruct x as [sx | sx | | sx mx ex], y as [sy | sy | | sy my ey];
    cbn [below]; try discriminate; intros Hx Hy.
  - now destruct sx, sy.
  - reflexivity.
  - reflexivity.
  - apply Z.leb_le in Hx. apply Z.leb_le in Hy.
    unfold sub. cbn [SFsub].
    apply binary_normalize_finite.
    set (ez := Z.min ex ey).
    destruct (shl_align_digits mx ex ez) as [Dx Ex].
    destruct (shl_align_digits my ey ez) as [Dy Ey].
    pose proof (Zdigits2_sub
                  (cond_Zopp sx (Zpos (fst (shl_align mx ex ez))))
                  (cond_Zopp sy (Zpos (fst (shl_align my ey ez))))) as HS.
    rewrite !cond_Zopp_digits in HS. cbn [Zdigits2] in HS.
    subst ez. lia.
Qed.

End PyFloatFacts.

(** ** Facts on the [.3f] format *)

Module FormatFacts.

Import PyFloat.

Lemma digit_is_digit d : (0 <= d <= 9)%Z -> is_digit (digit d) = true.
Proof.
  intros H.
  assert (C : (d = 0 \/ d = 1 \/ d = 2 \/ d = 3 \/ d = 4 \/ d = 5
               \/ d = 6 \/ d = 7 \/ d = 8 \/ d = 9)%Z) by lia.
  repeat (destruct C as [-> | C]; [reflexivity |]). now subst.
Qed.

Lemma uint_digits u : all_digits (NilEmpty.string_of_uint u) = true.
Proof. induction u; simpl; auto. Qed.

Lemma decimal_digits n : all_digits (decimal n) = true.
Proof.
  unfold decimal, NilZero.string_of_uint.
  destruct (N.to_uint (Z.to_N n)) eqn:E; try reflexivity;
    rewrite <- E; apply uint_digits.
Qed.

Lemma decimal_nonempty n : (String.length (decimal n) =? 0)%nat = false.
Proof.
  unfold decimal, NilZero.string_of_uint.
  now destruct (N.to_uint (Z.to_N n)).
Qed.

Lemma frac3_digits n : all_digits (frac3 n) = true.
Proof.
  unfold frac3. cbn [all_digits].
  pose proof (Z.mod_pos_bound n 1000 ltac:(lia)) as Hr.
  set (r := (n mod 1000)%Z) in *.
  assert (H1 : (0 <= r / 100 <= 9)%Z).
  { split; [apply Z.div_pos; lia |].
    assert (r / 100 < 10)%Z by (apply Z.div_lt_upper_bound; lia). lia. }
  assert (H2 : (0 <= r / 10 mod 10 <= 9)%Z).
  { pose proof (Z.mod_pos_bound (r / 10) 10 ltac:(lia)). lia. }
  assert (H3 : (0 <= r mod 10 <= 9)%Z).
  { pose proof (Z.mod_pos_bound r 10 ltac:(lia)). lia. }
  rewrite (digit_is_digit _ H1), (digit_is_digit _ H2), (digit_is_digit _ H3).
  reflexivity.
Qed.

Lemma frac3_length n : String.length (frac3 n) = 3%nat.
Proof. reflexivity. Qed.

(** A run of digits holds no decimal point: the cut falls right after it. *)
Lemma split_point_digits i f :
  all_digits i = true ->
  split_point (i ++ String "." f) = Some (i, f).
Proof.
  induction i as [| c i IH]; cbn [all_digits append split_point]; intros H.
  - reflexivity.
  - apply andb_prop in H. destruct H as [Hc Hi].
    rewrite (IH Hi).
    destruct (Ascii.eqb_spec c "."); [subst c; discriminate | reflexivity].
Qed.

Lemma drop_minus_digits i rest :
  all_digits i = true -> drop_minus (i ++ rest) = i ++ rest \/ i = "".
Proof.
  intros H. destruct i as [| c i]; [now right |]. left.
  cbn [all_digits] in H. apply andb_prop in H. destruct H as [Hc _].
  cbn [append drop_minus].
  destruct (Ascii.eqb_spec c "-"); [subst c; discriminate | reflexivity].
Qed.

Lemma fixed3_three_decimals s n : three_decimals (fixed3 s n) = true.
Proof.
  unfold three_decimals, fixed3.
  assert (E : drop_minus (sign s ++ decimal (n / 1000) ++ "." ++ frac3 n)
              = decimal (n / 1000) ++ String "." (frac3 n)).
  { pose proof (decimal_digits (n / 1000)) as Hd.
    pose proof (decimal_nonempty (n / 1000)) as Hn.
    destruct s; cbn [sign append drop_minus Ascii.eqb Bool.eqb].
    - reflexivity.
    - destruct (drop_minus_digits _ (String "." (frac3 n)) Hd) as [H | H].
      + exact H.
      + rewrite H in Hn. discriminate. }
  rewrite E, (split_point_digits _ _ (decimal_digits _)).
  rewrite decimal_nonempty, decimal_digits, frac3_digits. reflexivity.
Qed.

(** A finite float is printed with exactly three digits after the point. *)
Lemma format_3f_three_decimals x :
  is_finite x = true -> three_decimals (format_3f x) = true.
Proof.
  destruct x; cbn [is_finite format_3f]; try discriminate; intros _;
    apply fixed3_three_decimals.
Qed.

End FormatFacts.

(** ** The model at concrete inputs *)

(** [format(0.0625, '.3f')]: a tie, rounded to the even neighbour. *)
Example format_tie_to_even :
  PyFloat.format_3f (PyFloat.of_scaled 1 (-4)) = "0.062".
Proof. reflexivity. Qed.

(** [format(0.1875, '.3f')] *)
Example format_tie_upwards :
  PyFloat.format_3f (PyFloat.of_scaled 3 (-4)) = "0.188".
Proof. reflexivity. Qed.

(** [format(-2**-20, '.3f')]: the sign stays when the digits round to zero. *)
Example format_small_negative :
  PyFloat.format_3f (PyFloat.of_scaled (-1) (-20)) = "-0.000".
Proof. reflexivity. Qed.

(** [format(2.0**70, '.3f')]: no exponent, however large the number. *)
Example format_large :
  PyFloat.format_3f (PyFloat.of_scaled 1 70) = "1180591620717411303424.000".
Proof. reflexivity. Qed.

(** [1700000002.75 - 1700000000.25] *)
Example sub_of_two_samples :
  PyFloat.sub (Sample.tick 1) (Sample.tick 0) = PyFloat.of_scaled 5 (-1).
Proof. reflexivity. Qed.

(** A difference that overflows is an infinity, printed without digits. *)
Example format_overflow :
  PyFloat.format_3f
    (PyFloat.sub (S754_finite false 9007199254740991 971)
                 (S754_finite true 9007199254740991 971)) = "inf"
  /\ PyFloat.three_decimals "inf" = false.
Proof. split; reflexivity. Qed.

(** The three runs of the sample worlds. *)
Example run_ok :
  run main Sample.ok =
    {| status := Normal;
       events :=
         [EvPrint "../static/xes/book/bigger-example.xes --> /tmp/out.xes";
          EvTime (PyFloat.of_scaled 6800000001 (-2));
          EvImport "../static/xes/book/bigger-example.xes" (inr 7%nat);
          EvTime (PyFloat.of_scaled 6800000011 (-2));
          EvExport 7%nat "/tmp/out.xes" None;
          EvTime (PyFloat.of_scaled 6800000021 (-2));
          EvPrint "read in 2.500s, wrote in 2.500s"] |}.
Proof. reflexivity. Qed.

Example run_no_input :
  run main Sample.no_input =
    {| status := Uncaught "FileNotFoundError";
       events :=
         [EvPrint "../static/xes/book/bigger-example.xes --> /tmp/out.xes";
          EvTime (PyFloat.of_scaled 6800000001 (-2));
          EvImport "../static/xes/book/bigger-example.xes"
            (inl "FileNotFoundError")] |}.
Proof. reflexivity. Qed.

Example run_no_output :
  run main Sample.no_output =
    {| status := Uncaught "PermissionError";
       events :=
         [EvPrint "../static/xes/book/bigger-example.xes --> /tmp/out.xes";
          EvTime (PyFloat.of_scaled 6800000001 (-2));
          EvImport "../static/xes/book/bigger-example.xes" (inr 7%nat);
          EvTime (PyFloat.of_scaled 6800000011 (-2));
          EvExport 7%nat "/tmp/out.xes" (Some "PermissionError")] |}.
Proof. reflexivity. Qed.
(** ** The three ways a run can go *)

Section Runs.

Context {Log Exn : Type}.
Implicit Types (w : env Log Exn) (l : Log) (e : Exn).

Lemma run_import_raises w e :
  xes_import w in_path = inl e ->
  run_shape w (run main w).
Proof.
  intros Hi.
  assert (E : run main w =
    {| status := Uncaught e;
       events := [EvPrint (in_path ++ " --> " ++ out_path);
                  EvTime (clock w 0); EvImport in_path (inl e)] |}).
  { unfold run, main, bind, print, time, xes_import_factory_apply, emit.
    cbn [ticks trace app]. rewrite Hi. reflexivity. }
  rewrite E. now constructor.
Qed.

Lemma run_export_raises w l e :
  xes_import w in_path = inr l ->
  xes_export w l out_path = Some e ->
  run_shape w (run main w).
Proof.
  intros Hi He.
  assert (E : run main w =
    {| status := Uncaught e;
       events := [EvPrint (in_path ++ " --> " ++ out_path);
                  EvTime (clock w 0); EvImport in_path (inr l);
                  EvTime (clock w 1); EvExport l out_path (Some e)] |}).
  { unfold run, main, bind, print, time, xes_import_factory_apply,
      xes_exporter_export_log, emit.
    cbn [ticks trace app]. rewrite Hi. cbn [ticks trace app].
    rewrite He. reflexivity. }
  rewrite E. now constructor.
Qed.

Lemma run_succeeds w l :
  xes_import w in_path = inr l ->
  xes_export w l out_path = None ->
  run_shape w (run main w).
Proof.
  intros Hi He.
  assert (E : run main w =
    {| status := Normal;
       events := [EvPrint (in_path ++ " --> " ++ out_path);
                  EvTime (clock w 0); EvImport in_path (inr l);
                  EvTime (clock w 1); EvExport l out_path None;
                  EvTime (clock w 2);
                  EvPrint ("read in "
                           ++ PyFloat.format_3f (PyFloat.sub (clock w 1) (clock w 0))
                           ++ "s, wrote in "
                           ++ PyFloat.format_3f (PyFloat.sub (clock w 2) (clock w 1))
                           ++ "s")] |}).
  { unfold run, main, bind, print, time, xes_import_factory_apply,
      xes_exporter_export_log, emit.
    cbn [ticks trace app]. rewrite Hi. cbn [ticks trace app].
    rewrite He. reflexivity. }
  rewrite E. now constructor.
Qed.

(** Every run is one of the three. *)
Lemma run_cases w : run_shape w (run main w).
Proof.
  destruct (xes_import w in_path) as [e | l] eqn:Hi.
  - exact (run_import_raises w e Hi).
  - destruct (xes_export w l out_path) as [e |] eqn:He.
    + exact (run_export_raises w l e Hi He).
    + exact (run_succeeds w l Hi He).
Qed.

End Runs.

(** ** Properties of the script *)

Section Properties.

Context {Log Exn : Type}.
Implicit Types (w : env Log Exn) (l : Log) (e : Exn).

Local Abbreviation header :=
  "../static/xes/book/bigger-example.xes --> /tmp/out.xes".
Local Abbreviation timing_line d1 d2 :=
  ("read in " ++ PyFloat.format_3f d1 ++ "s, wrote in "
   ++ PyFloat.format_3f d2 ++ "s").

(** C1.  When both library calls succeed, the run is: the header, a clock
    sample [t_s], the import, a clock sample [t_m], the export, a clock
    sample [t_e], and the timing line.  The first duration of the timing
    line is [t_m - t_s], whose two samples are the events right before and
    right after the import; the second is [t_e - t_m], whose two samples are
    the events right before and right after the export.  No other event
    lies between the samples, and no other sample is taken. *)
Theorem durations_bracket_import_and_export w l :
  xes_import w in_path = inr l ->
  xes_export w l out_path = None ->
  exists t_s t_m t_e,
    events (run main w) =
      [EvPrint header;
       EvTime t_s; EvImport in_path (inr l); EvTime t_m;
       EvExport l out_path None; EvTime t_e;
       EvPrint (timing_line (PyFloat.sub t_m t_s) (PyFloat.sub t_e t_m))]
    /\ samples (events (run main w)) = [t_s; t_m; t_e].
Proof.
  intros Hi He. split_run (run_cases w).
  exists (clock w 0), (clock w 1), (clock w 2). split; reflexivity.
Qed.

(** C2, as amended.  When both library calls succeed, the operations of the
    body other than printing are, in order: timestamp, import, timestamp,
    export, timestamp.  A timestamp is taken before the import and three
    timestamps are taken in total; with the two prints the body is the
    seven operations of [script_ops]. *)
Theorem body_is_five_calls_between_two_prints w l :
  xes_import w in_path = inr l ->
  xes_export w l out_path = None ->
  calls (ops (events (run main w)))
    = [OpTime; OpImport; OpTime; OpExport; OpTime]
  /\ count_op OpTime (ops (events (run main w))) = 3%nat
  /\ ops (events (run main w)) = script_ops.
Proof.
  intros Hi He. split_run (run_cases w). repeat split.
Qed.

(** C3.  Whenever the export is called, its log argument is the object the
    import returned; between the two calls the script only samples the
    clock, and no other event of the run carries a log object. *)
Theorem export_receives_imported_log w l p r :
  In (EvExport l p r) (events (run main w)) ->
  xes_import w in_path = inr l
  /\ exists pre t post,
       events (run main w) =
         (pre ++ EvImport in_path (inr l) :: EvTime t :: EvExport l p r :: post)%list
       /\ flat_map logs_of pre = []
       /\ flat_map logs_of post = [].
Proof.
  intros HIn. split_run (run_cases w); cbn [In] in HIn.
  - repeat (destruct HIn as [HIn | HIn]; [discriminate HIn |]). contradiction.
  - repeat (destruct HIn as [HIn | HIn];
            [try discriminate HIn |]); [| contradiction].
    injection HIn as <- <- <-. split; [assumption |].
    exists [EvPrint header; EvTime (clock w 0)], (clock w 1), [].
    repeat split.
  - repeat (destruct HIn as [HIn | HIn];
            [try discriminate HIn |]); [| contradiction].
    injection HIn as <- <- <-. split; [assumption |].
    eexists [EvPrint header; EvTime (clock w 0)], (clock w 1), [_; _].
    repeat split.
Qed.

(** C4.  When the import or the export raises [e], the run ends with the
    uncaught exception [e] itself, right at the failing call: the import is
    called once and the export at most once (no retry), nothing follows the
    failing call (no recovery), and the script prints nothing after the
    header (no message of its own). *)
Theorem failures_propagate_unchanged w e :
  (xes_import w in_path = inl e
   \/ exists l, xes_import w in_path = inr l
                /\ xes_export w l out_path = Some e) ->
  status (run main w) = Uncaught e
  /\ raised (events (run main w)) = Some e
  /\ count_op OpImport (ops (events (run main w))) = 1%nat
  /\ (count_op OpExport (ops (events (run main w))) <= 1)%nat
  /\ stdout (events (run main w)) = [header].
Proof.
  intros [Hi | (l & Hi & He)]; split_run (run_cases w);
    repeat split; cbn; lia.
Qed.

(** C6.  A run is determined by the three clock samples, by what the
    import does with ['../static/xes/book/bigger-example.xes'] and by what
    the export does with ['/tmp/out.xes']: two worlds that agree on these
    give the same run, whatever their command lines, their environment
    variables and the rest of their file systems are.  In every run the
    import reads the first path, the export writes the second, and every
    other event is a clock sample or a line printed to the console. *)
Theorem run_depends_on_fixed_paths_only w w' :
  clock w' 0 = clock w 0 ->
  clock w' 1 = clock w 1 ->
  clock w' 2 = clock w 2 ->
  xes_import w' in_path = xes_import w in_path ->
  (forall l, xes_export w' l out_path = xes_export w l out_path) ->
  run main w' = run main w
  /\ Forall fixed_paths (events (run main w))
  /\ in_path = "../static/xes/book/bigger-example.xes"
  /\ out_path = "/tmp/out.xes".
Proof.
  intros H0 H1 H2 Hi He.
  split; [| split; [| split; reflexivity]].
  - destruct (run_cases w) as [e Hi0 | l e Hi0 He0 | l Hi0 He0];
      rewrite Hi0 in Hi;
      try (pose proof (He l) as He'; rewrite He0 in He');
      split_run (run_cases w'); rewrite ?H0, ?H1, ?H2; reflexivity.
  - split_run (run_cases w); repeat constructor.
Qed.

(** C8.  When the import raises, the export is never called, and the
    console shows the header line and nothing else. *)
Theorem import_failure_stops_script w e :
  xes_import w in_path = inl e ->
  (forall l p r, ~ In (EvExport l p r) (events (run main w)))
  /\ count_op OpExport (ops (events (run main w))) = 0%nat
  /\ stdout (events (run main w)) = [header].
Proof.
  intros Hi. split_run (run_cases w). repeat split.
  intros l p r HIn. cbn [In] in HIn.
  repeat (destruct HIn as [HIn | HIn]; [discriminate HIn |]). contradiction.
Qed.

(** C10.  When both library calls succeed and the three clock samples are
    finite numbers below [2^1022], the last line printed is
    ['read in {d1}s, wrote in {d2}s'], where [d1] is the second sample minus
    the first and [d2] the third minus the second, each written with a
    decimal point followed by exactly three digits. *)
Theorem timing_line_three_decimals w l :
  xes_import w in_path = inr l ->
  xes_export w l out_path = None ->
  PyFloat.below 1022 (clock w 0) = true ->
  PyFloat.below 1022 (clock w 1) = true ->
  PyFloat.below 1022 (clock w 2) = true ->
  exists d1 d2,
    samples (events (run main w)) = [clock w 0; clock w 1; clock w 2]
    /\ d1 = PyFloat.format_3f (PyFloat.sub (clock w 1) (clock w 0))
    /\ d2 = PyFloat.format_3f (PyFloat.sub (clock w 2) (clock w 1))
    /\ final (stdout (events (run main w)))
       = Some ("read in " ++ d1 ++ "s, wrote in " ++ d2 ++ "s")
    /\ PyFloat.three_decimals d1 = true
    /\ PyFloat.three_decimals d2 = true.
Proof.
  intros Hi He B0 B1 B2. split_run (run_cases w).
  do 2 eexists. repeat split.
  - apply FormatFacts.format_3f_three_decimals.
    now apply PyFloatFacts.sub_finite.
  - apply FormatFacts.format_3f_three_decimals.
    now apply PyFloatFacts.sub_finite.
Qed.


End Properties.

(** ** The properties at the sample worlds *)

(** C2, as the specification words it, fails on a successful run: the
    operations are not the four of [spec_four_operations], with or without
    the prints; the first call is a timestamp, taken before the import; and
    three timestamps are taken, not two. *)
Lemma spec_four_operations_refuted :
  status (run main Sample.ok) = Normal
  /\ ops (events (run main Sample.ok)) <> spec_four_operations
  /\ calls (ops (events (run main Sample.ok))) <> spec_four_operations
  /\ hd_error (calls (ops (events (run main Sample.ok)))) = Some OpTime
  /\ count_op OpTime (ops (events (run main Sample.ok))) = 3%nat
  /\ count_op OpTime spec_four_operations = 2%nat.
Proof.
  repeat split; try reflexivity; vm_compute; discriminate.
Qed.

Lemma durations_bracket_import_and_export_witness :
  xes_import Sample.ok in_path = inr 7%nat
  /\ xes_export Sample.ok 7%nat out_path = None
  /\ exists t_s t_m t_e,
       events (run main Sample.ok) =
         [EvPrint "../static/xes/book/bigger-example.xes --> /tmp/out.xes";
          EvTime t_s; EvImport in_path (inr 7%nat); EvTime t_m;
          EvExport 7%nat out_path None; EvTime t_e;
          EvPrint ("read in " ++ PyFloat.format_3f (PyFloat.sub t_m t_s)
                   ++ "s, wrote in " ++ PyFloat.format_3f (PyFloat.sub t_e t_m)
                   ++ "s")]
       /\ samples (events (run main Sample.ok)) = [t_s; t_m; t_e].
Proof.
  split; [reflexivity | split; [reflexivity |]].
  apply (durations_bracket_import_and_export Sample.ok 7%nat); reflexivity.
Defined.

Lemma body_is_five_calls_between_two_prints_witness :
  xes_import Sample.ok in_path = inr 7%nat
  /\ xes_export Sample.ok 7%nat out_path = None
  /\ calls (ops (events (run main Sample.ok)))
     = [OpTime; OpImport; OpTime; OpExport; OpTime]
  /\ count_op OpTime (ops (events (run main Sample.ok))) = 3%nat
  /\ ops (events (run main Sample.ok)) = script_ops.
Proof.
  split; [reflexivity | split; [reflexivity |]].
  apply (body_is_five_calls_between_two_prints Sample.ok 7%nat); reflexivity.
Defined.

Lemma export_receives_imported_log_witness :
  In (EvExport 7%nat out_path (Some "PermissionError"))
     (events (run main Sample.no_output))
  /\ xes_import Sample.no_output in_path = inr 7%nat
  /\ exists pre t post,
       events (run main Sample.no_output) =
         (pre ++ EvImport in_path (inr 7%nat) :: EvTime t
              :: EvExport 7%nat out_path (Some "PermissionError") :: post)%list
       /\ flat_map logs_of pre = []
       /\ flat_map logs_of post = [].
Proof.
  assert (H : In (EvExport 7%nat out_path (Some "PermissionError"))
                 (events (run main Sample.no_output))).
  { vm_compute. do 4 right. left. reflexivity. }
  split; [exact H |].
  exact (export_receives_imported_log Sample.no_output _ _ _ H).
Defined.

Lemma failures_propagate_unchanged_witness :
  xes_import Sample.no_input in_path = inl "FileNotFoundError"
  /\ status (run main Sample.no_input) = Uncaught "FileNotFoundError"
  /\ raised (events (run main Sample.no_input)) = Some "FileNotFoundError"
  /\ count_op OpImport (ops (events (run main Sample.no_input))) = 1%nat
  /\ (count_op OpExport (ops (events (run main Sample.no_input))) <= 1)%nat
  /\ stdout (events (run main Sample.no_input))
     = ["../static/xes/book/bigger-example.xes --> /tmp/out.xes"].
Proof.
  split; [reflexivity |].
  apply (failures_propagate_unchanged Sample.no_input "FileNotFoundError").
  left. reflexivity.
Defined.

Lemma import_failure_stops_script_witness :
  xes_import Sample.no_input in_path = inl "FileNotFoundError"
  /\ (forall l p r, ~ In (EvExport l p r) (events (run main Sample.no_input)))
  /\ count_op OpExport (ops (events (run main Sample.no_input))) = 0%nat
  /\ stdout (events (run main Sample.no_input))
     = ["../static/xes/book/bigger-example.xes --> /tmp/out.xes"].
Proof.
  split; [reflexivity |].
  exact (import_failure_stops_script Sample.no_input
           "FileNotFoundError" eq_refl).
Defined.

Lemma timing_line_three_decimals_witness :
  xes_import Sample.ok in_path = inr 7%nat
  /\ xes_export Sample.ok 7%nat out_path = None
  /\ PyFloat.below 1022 (clock Sample.ok 0) = true
  /\ PyFloat.below 1022 (clock Sample.ok 1) = true
  /\ PyFloat.below 1022 (clock Sample.ok 2) = true
  /\ exists d1 d2,
       samples (events (run main Sample.ok))
         = [clock Sample.ok 0; clock Sample.ok 1; clock Sample.ok 2]
       /\ d1 = PyFloat.format_3f (PyFloat.sub (clock Sample.ok 1) (clock Sample.ok 0))
       /\ d2 = PyFloat.format_3f (PyFloat.sub (clock Sample.ok 2) (clock Sample.ok 1))
       /\ final (stdout (events (run main Sample.ok)))
          = Some ("read in " ++ d1 ++ "s, wrote in " ++ d2 ++ "s")
       /\ PyFloat.three_decimals d1 = true
       /\ PyFloat.three_decimals d2 = true.
Proof.
  repeat (split; [reflexivity |]).
  apply (timing_line_three_decimals Sample.ok 7%nat); reflexivity.
Defined.

Lemma run_depends_on_fixed_paths_only_witness :
  argv Sample.ok_elsewhere <> argv Sample.ok
  /\ environ Sample.ok_elsewhere <> environ Sample.ok
  /\ xes_import Sample.ok_elsewhere "other.xes" <> xes_import Sample.ok "other.xes"
  /\ clock Sample.ok_elsewhere 0 = clock Sample.ok 0
  /\ clock Sample.ok_elsewhere 1 = clock Sample.ok 1
  /\ clock Sample.ok_elsewhere 2 = clock Sample.ok 2
  /\ xes_import Sample.ok_elsewhere in_path = xes_import Sample.ok in_path
  /\ (forall l, xes_export Sample.ok_elsewhere l out_path
                = xes_export Sample.ok l out_path)
  /\ run main Sample.ok_elsewhere = run main Sample.ok
  /\ Forall fixed_paths (events (run main Sample.ok))
  /\ in_path = "../static/xes/book/bigger-example.xes"
  /\ out_path = "/tmp/out.xes".
Proof.
  do 3 (split; [discriminate |]).
  do 5 (split; [reflexivity |]).
  exact (run_depends_on_fixed_paths_only Sample.ok Sample.ok_elsewhere
           eq_refl eq_refl eq_refl eq_refl (fun _ => eq_refl)).
Defined.

(** ** Further properties of the script *)

Module DurationFacts.

Import PyFloat.

(** A finite number minus itself is [+0.0]. *)
Lemma sub_self x : is_finite x = true -> sub x x = S754_zero false.
Proof.
  destruct x as [s | s | | s m e]; cbn [is_finite]; try discriminate; intros _.
  - now destruct s.
  - unfold sub. cbn [SFsub]. rewrite Z.sub_diag. reflexivity.
Qed.

(** [round_half_even n d] is a nearest integer to [n / d], the even one
    when there are two. *)
Lemma round_half_even_nearest n d :
  (0 <= n)%Z -> (0 < d)%Z ->
  (0 <= round_half_even n d
   /\ 2 * Z.abs (round_half_even n d * d - n) <= d
   /\ (2 * Z.abs (round_half_even n d * d - n) = d
       -> Z.even (round_half_even n d) = true))%Z.
Proof.
  intros Hn Hd. unfold round_half_even.
  pose proof (Z.div_mod n d ltac:(lia)) as E.
  pose proof (Z.mod_pos_bound n d Hd) as B.
  assert (Q : (0 <= n / d)%Z) by (apply Z.div_pos; lia).
  set (q := (n / d)%Z) in *. set (r := (n mod d)%Z) in *.
  assert (E1 : (q * d - n = - r)%Z) by lia.
  assert (E2 : ((q + 1) * d - n = d - r)%Z) by lia.
  destruct (Z.ltb_spec (2 * r) d) as [L1 | L1];
    [| destruct (Z.ltb_spec d (2 * r)) as [L2 | L2];
       [| destruct (Z.even q) eqn:Ev]].
  - rewrite E1. split; [lia | split; lia].
  - rewrite E2. split; [lia | split; lia].
  - rewrite E1. split; [lia | split; [lia | intros _; exact Ev]].
  - rewrite E2. split; [lia | split; [lia |]]. intros _.
    rewrite Z.even_add, Ev. reflexivity.
Qed.

Lemma thousandths_nearest s m e :
  nearest_thousandth (S754_finite s m e) (thousandths m e).
Proof.
  cbn [nearest_thousandth]. unfold thousandths.
  destruct (Z.leb_spec 0 e) as [He | He].
  - rewrite (Z.max_l 0 (- e)), (Z.max_r 0 e) by lia.
    change (2 ^ 0)%Z with 1%Z.
    assert (P : (0 < 2 ^ e)%Z) by (apply Z.pow_pos_nonneg; lia).
    replace (Z.pos m * 2 ^ e * 1000 * 1 - 1000 * Z.pos m * 2 ^ e)%Z
      with 0%Z by ring.
    cbn [Z.abs]. split; [nia | split; [lia | intros; lia]].
  - rewrite (Z.max_r 0 (- e)), (Z.max_l 0 e) by lia.
    change (2 ^ 0)%Z with 1%Z.
    assert (P : (0 < 2 ^ (- e))%Z) by (apply Z.pow_pos_nonneg; lia).
    destruct (round_half_even_nearest (Z.pos m * 1000) (2 ^ (- e))
                ltac:(lia) P) as (H0 & H1 & H2).
    replace (1000 * Z.pos m * 1)%Z with (Z.pos m * 1000)%Z by ring.
    split; [exact H0 | split; [exact H1 | exact H2]].
Qed.

(** Every magnitude below one thousand is read back from its three digits. *)
Lemma frac3_read_table :
  forallb (fun k =>
             match NilEmpty.uint_of_string (frac3 (Z.of_nat k)) with
             | Some u => (Z.of_N (N.of_uint u) =? Z.of_nat k)%Z
             | None => false
             end) (seq 0 1000) = true.
Proof. vm_compute. reflexivity. Qed.

Lemma frac3_read n :
  exists u, NilEmpty.uint_of_string (frac3 n) = Some u
            /\ Z.of_N (N.of_uint u) = (n mod 1000)%Z.
Proof.
  pose proof (Z.mod_pos_bound n 1000 ltac:(lia)) as B.
  assert (E : frac3 n = frac3 (Z.of_nat (Z.to_nat (n mod 1000)))).
  { unfold frac3. rewrite Z2Nat.id by lia. rewrite Z.mod_mod by lia.
    reflexivity. }
  pose proof (proj1 (forallb_forall _ _) frac3_read_table
                (Z.to_nat (n mod 1000))) as T.
  cbv beta in T. rewrite <- E in T.
  destruct (NilEmpty.uint_of_string (frac3 n)) as [u |].
  - exists u. split; [reflexivity |].
    rewrite Z2Nat.id in T by lia. apply Z.eqb_eq. apply T.
    apply in_seq. lia.
  - exfalso. assert (F : false = true) by (apply T; apply in_seq; lia).
    discriminate F.
Qed.

Lemma decimal_read q :
  (0 <= q)%Z ->
  exists u, NilEmpty.uint_of_string (decimal q) = Some u
            /\ Z.of_N (N.of_uint u) = q.
Proof.
  intros Hq. exists (N.to_uint (Z.to_N q)). split.
  - unfold decimal, NilZero.string_of_uint.
    destruct (N.to_uint (Z.to_N q)) eqn:E; try (rewrite <- E; apply NilEmpty.usu).
    exfalso. destruct (Z.to_N q) as [| p]; [discriminate E |].
    exact (DecimalPos.Unsigned.to_uint_nonnil p E).
  - rewrite DecimalN.Unsigned.of_to. apply Z2N.id. exact Hq.
Qed.

Lemma fixed3_starts_with_minus s n : starts_with_minus (fixed3 s n) = s.
Proof.
  unfold fixed3. destruct s; [reflexivity |]. cbn [sign append].
  pose proof (FormatFacts.decimal_digits (n / 1000)) as D.
  pose proof (FormatFacts.decimal_nonempty (n / 1000)) as N.
  destruct (decimal (n / 1000)) as [| c i]; [discriminate N |].
  cbn [append starts_with_minus]. cbn [all_digits] in D.
  apply andb_prop in D. destruct D as [Dc _].
  destruct (Ascii.eqb_spec c "-"); [subst c; discriminate Dc | reflexivity].
Qed.

Lemma drop_minus_unsigned t : starts_with_minus t = false -> drop_minus t = t.
Proof.
  destruct t as [| c r]; [reflexivity |].
  cbn [starts_with_minus drop_minus]. now intros ->.
Qed.

Lemma drop_minus_fixed3 s n :
  drop_minus (fixed3 s n) = decimal (n / 1000) ++ String "." (frac3 n).
Proof.
  destruct s; [reflexivity |].
  exact (drop_minus_unsigned _ (fixed3_starts_with_minus false n)).
Qed.

(** The numeral written for [n] thousandths reads back as [n]. *)
Lemma read_fixed3_fixed3 s n :
  (0 <= n)%Z -> read_fixed3 (fixed3 s n) = Some (s, n).
Proof.
  intros Hn. unfold read_fixed3.
  rewrite drop_minus_fixed3, fixed3_starts_with_minus.
  rewrite (FormatFacts.split_point_digits _ _ (FormatFacts.decimal_digits _)).
  assert (Q : (0 <= n / 1000)%Z) by (apply Z.div_pos; lia).
  destruct (decimal_read _ Q) as (ui & Ei & Vi).
  destruct (frac3_read n) as (uf & Ef & Vf).
  rewrite Ei, Ef, FormatFacts.decimal_nonempty, Vi, Vf.
  cbn [negb andb String.length frac3 Nat.eqb].
  do 2 f_equal. pose proof (Z.div_mod n 1000 ltac:(lia)). lia.
Qed.

(** The text of a finite float denotes its sign and its magnitude rounded
    to the nearest thousandth. *)
Lemma format_3f_reads_back x :
  is_finite x = true ->
  exists n, read_fixed3 (format_3f x) = Some (sign_bit x, n)
            /\ nearest_thousandth x n.
Proof.
  destruct x as [s | s | | s m e]; cbn [is_finite]; try discriminate; intros _.
  - exists 0%Z. split; [now destruct s | reflexivity].
  - exists (thousandths m e). pose proof (thousandths_nearest s m e) as T.
    split; [| exact T]. cbn [format_3f sign_bit].
    apply read_fixed3_fixed3. exact (proj1 T).
Qed.

(** *** The sign of a difference *)

Local Open Scope Z_scope.

Lemma format_3f_starts_with_minus x :
  starts_with_minus (format_3f x) = sign_bit x.
Proof.
  destruct x as [s | s | | s m e]; cbn [format_3f sign_bit];
    try apply fixed3_starts_with_minus; [now destruct s | reflexivity].
Qed.

(** Rounding keeps the sign it is given. *)
Lemma binary_round_aux_sign s m e l :
  0 <= m -> sign_bit (binary_round_aux prec emax s m e l) = s.
Proof.
  intros Hm. unfold binary_round_aux, shr_fexp.
  set (n := fexp prec emax (Zdigits2 m + e) - e).
  pose proof (PyFloatFacts.shr_digits (shr_record_of_loc m l) e n) as H1.
  rewrite PyFloatFacts.shr_record_of_loc_m in H1. specialize (H1 Hm).
  destruct (shr (shr_record_of_loc m l) e n) as [mrs1 e1].
  cbn [fst snd] in H1. destruct H1 as (P1 & _ & _).
  destruct (PyFloatFacts.round_nearest_even_bounds
              (shr_m mrs1) (loc_of_shr_record mrs1) P1) as [P2 _].
  set (m1 := round_nearest_even (shr_m mrs1) (loc_of_shr_record mrs1)) in *.
  set (n2 := fexp prec emax (Zdigits2 m1 + e1) - e1).
  pose proof (PyFloatFacts.shr_digits (shr_record_of_loc m1 loc_Exact) e1 n2)
    as H3.
  rewrite PyFloatFacts.shr_record_of_loc_m in H3. specialize (H3 P2).
  destruct (shr (shr_record_of_loc m1 loc_Exact) e1 n2) as [mrs2 e2].
  cbn [fst snd] in H3. destruct H3 as (P3 & _ & _).
  destruct (shr_m mrs2) as [| p | p]; [reflexivity | | lia].
  now destruct (e2 <=? emax - prec).
Qed.

Lemma binary_normalize_sign m e :
  sign_bit (binary_normalize prec emax m e false) = (m <? 0).
Proof.
  destruct m as [| p | p]; cbn [binary_normalize]; [reflexivity | |];
    unfold binary_round;
    destruct (shl_align p e (fexp prec emax (Z.pos (digits2_pos p) + e)))
      as [mz ez];
    apply binary_round_aux_sign; lia.
Qed.

Lemma iter_xO_pow d m : Zpos (Pos.iter xO m d) = Zpos m * 2 ^ Zpos d.
Proof.
  induction d using Pos.peano_ind.
  - cbn [Pos.iter]. lia.
  - rewrite Pos.iter_succ, Pos2Z.inj_succ, Z.pow_succ_r by lia.
    rewrite Pos2Z.inj_xO, IHd. ring.
Qed.

(** Aligning a mantissa to a smaller exponent keeps the value. *)
Lemma shl_align_value m e ez :
  ez <= e -> Zpos (fst (shl_align m e ez)) = Zpos m * 2 ^ (e - ez).
Proof.
  intros H. unfold shl_align.
  destruct (ez - e) as [| d | d] eqn:Hd; cbn [fst].
  - replace (e - ez) with 0 by lia. cbn. lia.
  - lia.
  - rewrite iter_xO_pow. replace (e - ez) with (Zpos d) by lia. reflexivity.
Qed.

(** The leading bit of a mantissa. *)
Lemma digits2_pos_bounds m :
  2 ^ (Zpos (digits2_pos m) - 1) <= Zpos m < 2 ^ Zpos (digits2_pos m).
Proof.
  pose proof (PyFloatFacts.Zdigits2_log2 (Zpos m) ltac:(lia)) as E.
  cbn [Zdigits2] in E. rewrite E.
  pose proof (Z.log2_spec (Zpos m) ltac:(lia)) as B.
  replace (Z.log2 (Z.pos m) + 1 - 1) with (Z.log2 (Z.pos m)) by lia.
  replace (Z.log2 (Z.pos m) + 1) with (Z.succ (Z.log2 (Z.pos m))) by lia.
  exact B.
Qed.

(** A canonical mantissa has at most 53 bits, and exactly 53 above the
    least exponent. *)
Lemma bounded_digits m e :
  bounded prec emax m e = true ->
  - 1074 <= e
  /\ Zpos (digits2_pos m) <= 53
  /\ (- 1074 < e -> Zpos (digits2_pos m) = 53).
Proof.
  unfold bounded, canonical_mantissa, fexp, emin, prec, emax.
  intros H. apply andb_prop in H. destruct H as [H _].
  apply Z.eqb_eq in H. lia.
Qed.

(** With a smaller exponent a canonical number is smaller. *)
Lemma smaller_exponent_smaller_value ma ea mb eb :
  bounded prec emax ma ea = true ->
  bounded prec emax mb eb = true ->
  eb < ea ->
  Zpos mb < Zpos ma * 2 ^ (ea - eb).
Proof.
  intros Ha Hb Hlt.
  destruct (bounded_digits _ _ Ha) as (_ & _ & Da).
  destruct (bounded_digits _ _ Hb) as (Eb & Db & _).
  specialize (Da ltac:(lia)).
  pose proof (digits2_pos_bounds ma) as Ba. rewrite Da in Ba.
  pose proof (digits2_pos_bounds mb) as Bb.
  assert (Pb : 2 ^ Zpos (digits2_pos mb) <= 2 ^ 53)
    by (apply Z.pow_le_mono_r; lia).
  assert (P2 : 2 ^ 1 <= 2 ^ (ea - eb)) by (apply Z.pow_le_mono_r; lia).
  change (2 ^ (53 - 1)) with 4503599627370496 in Ba.
  change (2 ^ 53) with 9007199254740992 in *.
  change (2 ^ 1) with 2 in P2. nia.
Qed.

(** On positive numbers the sign of [x - y] tells whether [x < y]. *)
Lemma sub_sign_lt x y :
  positive x = true -> positive y = true ->
  sign_bit (sub x y) = lt x y.
Proof.
  destruct x as [| | | [] mx ex]; try discriminate.
  destruct y as [| | | [] my ey]; try discriminate.
  cbn [positive]. intros Hx Hy.
  unfold sub. cbn [SFsub cond_Zopp]. rewrite binary_normalize_sign.
  unfold lt, SFltb. cbn [SFcompare].
  destruct (Z.compare_spec ex ey) as [E | L | G].
  - subst ey. rewrite Z.min_id.
    rewrite !shl_align_value by lia. rewrite Z.sub_diag.
    change (2 ^ 0) with 1. rewrite !Z.mul_1_r.
    change (Pos.compare_cont Eq mx my) with (Pos.compare mx my).
    destruct (Pos.compare_spec mx my) as [E | L | G];
      [subst; apply Z.ltb_ge | apply Z.ltb_lt | apply Z.ltb_ge]; lia.
  - rewrite Z.min_l by lia. rewrite !shl_align_value by lia.
    rewrite Z.sub_diag. change (2 ^ 0) with 1. rewrite Z.mul_1_r.
    pose proof (smaller_exponent_smaller_value my ey mx ex Hy Hx L).
    apply Z.ltb_lt. lia.
  - rewrite Z.min_r by lia. rewrite !shl_align_value by lia.
    rewrite Z.sub_diag. change (2 ^ 0) with 1. rewrite Z.mul_1_r.
    pose proof (smaller_exponent_smaller_value mx ex my ey Hx Hy G).
    apply Z.ltb_ge. lia.
Qed.

End DurationFacts.

Section MoreProperties.

Context {Log Exn : Type}.
Implicit Types (w : env Log Exn) (l : Log) (e : Exn).

(** When the clock does not advance across a call, the duration of that
    call is printed as [0.000], without a sign. *)
Theorem stalled_clock_prints_zero w l :
  xes_import w in_path = inr l ->
  xes_export w l out_path = None ->
  PyFloat.is_finite (clock w 1) = true ->
  (clock w 1 = clock w 0 ->
   final (stdout (events (run main w)))
   = Some ("read in 0.000s, wrote in "
           ++ PyFloat.format_3f (PyFloat.sub (clock w 2) (clock w 1)) ++ "s"))
  /\ (clock w 2 = clock w 1 ->
      final (stdout (events (run main w)))
      = Some ("read in "
              ++ PyFloat.format_3f (PyFloat.sub (clock w 1) (clock w 0))
              ++ "s, wrote in 0.000s")).
Proof.
  intros Hi He Hf. split_run (run_cases w). cbn [stdout final].
  split; intros E.
  - rewrite <- E at 1. rewrite (DurationFacts.sub_self _ Hf). reflexivity.
  - rewrite E at 1. rewrite (DurationFacts.sub_self _ Hf). reflexivity.
Qed.

(** Each duration of the timing line denotes the difference of its two
    clock samples rounded to the nearest thousandth of a second, ties to
    even, with the sign of the difference: reading the printed text back
    gives exactly that sign and that number of thousandths. *)
Theorem printed_durations_round_to_nearest_thousandth w l :
  xes_import w in_path = inr l ->
  xes_export w l out_path = None ->
  PyFloat.below 1022 (clock w 0) = true ->
  PyFloat.below 1022 (clock w 1) = true ->
  PyFloat.below 1022 (clock w 2) = true ->
  exists t1 t2 n1 n2,
    final (stdout (events (run main w)))
    = Some ("read in " ++ t1 ++ "s, wrote in " ++ t2 ++ "s")
    /\ PyFloat.read_fixed3 t1
       = Some (PyFloat.sign_bit (PyFloat.sub (clock w 1) (clock w 0)), n1)
    /\ PyFloat.nearest_thousandth (PyFloat.sub (clock w 1) (clock w 0)) n1
    /\ PyFloat.read_fixed3 t2
       = Some (PyFloat.sign_bit (PyFloat.sub (clock w 2) (clock w 1)), n2)
    /\ PyFloat.nearest_thousandth (PyFloat.sub (clock w 2) (clock w 1)) n2.
Proof.
  intros Hi He B0 B1 B2. split_run (run_cases w). cbn [stdout final].
  destruct (DurationFacts.format_3f_reads_back _
              (PyFloatFacts.sub_finite _ _ B1 B0)) as (n1 & R1 & N1).
  destruct (DurationFacts.format_3f_reads_back _
              (PyFloatFacts.sub_finite _ _ B2 B1)) as (n2 & R2 & N2).
  exists (PyFloat.format_3f (PyFloat.sub (clock w 1) (clock w 0))),
         (PyFloat.format_3f (PyFloat.sub (clock w 2) (clock w 1))), n1, n2.
  repeat split; assumption.
Qed.

(** A duration of the timing line carries a minus sign exactly when the
    clock sample taken after the call is smaller than the one taken before
    it, for samples that are positive binary64 numbers. *)
Theorem duration_sign_follows_clock_order w l :
  xes_import w in_path = inr l ->
  xes_export w l out_path = None ->
  PyFloat.positive (clock w 0) = true ->
  PyFloat.positive (clock w 1) = true ->
  PyFloat.positive (clock w 2) = true ->
  exists t1 t2,
    final (stdout (events (run main w)))
    = Some ("read in " ++ t1 ++ "s, wrote in " ++ t2 ++ "s")
    /\ PyFloat.starts_with_minus t1 = PyFloat.lt (clock w 1) (clock w 0)
    /\ PyFloat.starts_with_minus t2 = PyFloat.lt (clock w 2) (clock w 1).
Proof.
  intros Hi He P0 P1 P2. split_run (run_cases w). cbn [stdout final].
  do 2 eexists. split; [reflexivity |].
  rewrite !DurationFacts.format_3f_starts_with_minus.
  split; apply DurationFacts.sub_sign_lt; assumption.
Qed.

End MoreProperties.

Lemma stalled_clock_prints_zero_witness :
  xes_import Sample.stalled in_path = inr 7%nat
  /\ xes_export Sample.stalled 7%nat out_path = None
  /\ PyFloat.is_finite (clock Sample.stalled 1) = true
  /\ clock Sample.stalled 1 = clock Sample.stalled 0
  /\ final (stdout (events (run main Sample.stalled)))
     = Some "read in 0.000s, wrote in 0.000s".
Proof.
  do 4 (split; [reflexivity |]).
  exact (proj1 (stalled_clock_prints_zero Sample.stalled 7%nat
                  eq_refl eq_refl eq_refl) eq_refl).
Defined.


Lemma printed_durations_round_to_nearest_thousandth_witness :
  xes_import Sample.ok in_path = inr 7%nat
  /\ xes_export Sample.ok 7%nat out_path = None
  /\ PyFloat.below 1022 (clock Sample.ok 0) = true
  /\ PyFloat.below 1022 (clock Sample.ok 1) = true
  /\ PyFloat.below 1022 (clock Sample.ok 2) = true
  /\ exists t1 t2 n1 n2,
       final (stdout (events (run main Sample.ok)))
       = Some ("read in " ++ t1 ++ "s, wrote in " ++ t2 ++ "s")
       /\ PyFloat.read_fixed3 t1
          = Some (PyFloat.sign_bit
                    (PyFloat.sub (clock Sample.ok 1) (clock Sample.ok 0)), n1)
       /\ PyFloat.nearest_thousandth
            (PyFloat.sub (clock Sample.ok 1) (clock Sample.ok 0)) n1
       /\ PyFloat.read_fixed3 t2
          = Some (PyFloat.sign_bit
                    (PyFloat.sub (clock Sample.ok 2) (clock Sample.ok 1)), n2)
       /\ PyFloat.nearest_thousandth
            (PyFloat.sub (clock Sample.ok 2) (clock Sample.ok 1)) n2.
Proof.
  do 5 (split; [reflexivity |]).
  exact (printed_durations_round_to_nearest_thousandth Sample.ok 7%nat
           eq_refl eq_refl eq_refl eq_refl eq_refl).
Defined.

Lemma duration_sign_follows_clock_order_witness :
  xes_import Sample.steps_back in_path = inr 7%nat
  /\ xes_export Sample.steps_back 7%nat out_path = None
  /\ PyFloat.positive (clock Sample.steps_back 0) = true
  /\ PyFloat.positive (clock Sample.steps_back 1) = true
  /\ PyFloat.positive (clock Sample.steps_back 2) = true
  /\ PyFloat.lt (clock Sample.steps_back 1) (clock Sample.steps_back 0) = true
  /\ final (stdout (events (run main Sample.steps_back)))
     = Some "read in -0.500s, wrote in -0.500s"
  /\ exists t1 t2,
       final (stdout (events (run main Sample.steps_back)))
       = Some ("read in " ++ t1 ++ "s, wrote in " ++ t2 ++ "s")
       /\ PyFloat.starts_with_minus t1
          = PyFloat.lt (clock Sample.steps_back 1) (clock Sample.steps_back 0)
       /\ PyFloat.starts_with_minus t2
          = PyFloat.lt (clock Sample.steps_back 2) (clock Sample.steps_back 1).
Proof.
  do 7 (split; [reflexivity |]).
  exact (duration_sign_follows_clock_order Sample.steps_back 7%nat
           eq_refl eq_refl eq_refl eq_refl eq_refl).
Defined.

(** ** The whole process: how the file runs *)

Module ProcessFacts.

Import Process.

Section Facts.

Context {Log Exn : Type}.
Implicit Types (h : host Log Exn) (l : Log) (e : Exn).

(** Every run of the file is one of the six. *)
Lemma run_script_cases h : script_run h (run script h).
Proof.
  unfold run, script, import_modules, print, time, xes_import_factory_apply,
    xes_exporter_export_log.
  cbn [exec perform note clock_reads prints written app].
  destruct (modules h) as [e |] eqn:Hm; cbn [returned_or_raised].
  { now constructor. }
  destruct (console h 0 (in_path ++ " --> " ++ out_path)) as [e |] eqn:Hp;
    cbn [returned_or_raised].
  { now constructor. }
  destruct (xes_import (outside h) in_path) as [e | l] eqn:Hi.
  { now constructor. }
  cbn [clock_reads prints written app].
  destruct (xes_export (outside h) l out_path) as [e |] eqn:He;
    cbn [returned_or_raised].
  { now constructor. }
  cbn [clock_reads prints written app].
  match goal with
  | |- context [console h 1 ?s] =>
      destruct (console h 1 s) as [e |] eqn:Ht
  end; cbn [returned_or_raised].
  - now apply TimingRaises with (l := l).
  - now apply Completes with (l := l).
Qed.

(** *** What a straight-line program does *)

Lemma final_app {A} (xs ys : list A) :
  ys <> [] -> final (xs ++ ys)%list = final ys.
Proof.
  intros Hy. induction xs as [| x xs IH]; [reflexivity |].
  cbn [app]. destruct (xs ++ ys)%list as [| z zs] eqn:E.
  - destruct xs; [cbn in E; contradiction | discriminate E].
  - cbn [final] in *. exact IH.
Qed.

Lemma removelast_final {A} (xs : list A) :
  xs <> [] -> exists x, final xs = Some x /\ xs = (removelast xs ++ [x])%list.
Proof.
  induction xs as [| a [| b xs] IH]; intros Hne.
  - contradiction.
  - exists a. split; reflexivity.
  - destruct (IH ltac:(discriminate)) as (x & Hf & Hr).
    exists x. split; [exact Hf |].
    change (removelast (a :: b :: xs)) with (a :: removelast (b :: xs)).
    cbn [app]. f_equal. exact Hr.
Qed.

(** A journal whose calls before the last did not raise, and whose last
    call did not raise either. *)
Lemma all_returned (js : list (entry Log Exn)) :
  Forall (fun j => failure j = None) (removelast js) ->
  last_failure js = None ->
  Forall (fun j => failure j = None) js.
Proof.
  intros Hr Hl. destruct js as [| j js]; [constructor |].
  destruct (removelast_final (j :: js) ltac:(discriminate)) as (x & Hf & E).
  rewrite E. apply Forall_app. split; [exact Hr |].
  constructor; [| constructor].
  unfold last_failure in Hl. rewrite Hf in Hl. exact Hl.
Qed.

(** One call adds one entry of its kind, with its outcome. *)
Lemma perform_one {A} (c : call Log A) h st :
  exists j,
    written (snd (perform c h st)) = (written st ++ [j])%list
    /\ kind_of j = kind_of_call c
    /\ match fst (perform c h st) with
       | Returned _ => failure j = None
       | Raised e => failure j = Some e
       end.
Proof.
  destruct c; cbn [perform].
  - exists (JLoad (modules h)). now destruct (modules h).
  - exists (JPrint s (console h (prints st) s)).
    now destruct (console h (prints st) s).
  - eexists (JTime _). repeat split.
  - exists (JImport path (xes_import (outside h) path)).
    now destruct (xes_import (outside h) path).
  - exists (JExport log path (xes_export (outside h) log path)).
    now destruct (xes_export (outside h) log path).
Qed.

(** A straight-line program makes its calls in order, each at most once,
    and stops at the first call that raises, with that exception: the calls
    made are an initial part of the sequence, none but the last raised, and
    the program returns exactly when the sequence is complete. *)
Lemma straight_exec {A} ks (p : prog Log Exn A) :
  straight ks p ->
  forall h st,
  exists js,
    written (snd (exec p h st)) = (written st ++ js)%list
    /\ kinds js = firstn (List.length js) ks
    /\ Forall (fun j => failure j = None) (removelast js)
    /\ match fst (exec p h st) with
       | Returned _ =>
           List.length js = List.length ks /\ last_failure js = None
       | Raised e => last_failure js = Some e
       end.
Proof.
  induction 1 as [A a | A c | A B p k ks1 ks2 Hp IHp Hk IHk]; intros h st.
  - exists []. cbn [exec fst snd]. rewrite app_nil_r. repeat split. constructor.
  - destruct (perform_one c h st) as (j & Hw & Hk & Hf).
    exists [j]. cbn [exec]. split; [exact Hw |].
    split; [cbn; now rewrite Hk |]. split; [constructor |].
    unfold last_failure. cbn [final List.length].
    destruct (fst (perform c h st)); [split; [reflexivity | exact Hf] | exact Hf].
  - cbn [exec]. destruct (IHp h st) as (js1 & W1 & K1 & F1 & R1).
    assert (L1 : (List.length js1 <= List.length ks1)%nat).
    { pose proof (f_equal (@List.length _) K1) as E. unfold kinds in E.
      rewrite length_map, length_firstn in E. lia. }
    destruct (exec p h st) as [[a | e] st1]; cbn [fst snd] in *.
    + destruct R1 as [Len1 Last1].
      destruct (IHk a h st1) as (js2 & W2 & K2 & F2 & R2).
      exists (js1 ++ js2)%list. rewrite W2, W1, app_assoc.
      split; [reflexivity |].
      assert (All1 : Forall (fun j => failure j = None) js1)
        by (apply all_returned; assumption).
      assert (K1' : kinds js1 = ks1).
      { rewrite K1, Len1. apply firstn_all. }
      split; [| split].
      * unfold kinds in *. rewrite map_app, length_app, K1', K2, Len1.
        rewrite firstn_app_2. reflexivity.
      * destruct js2 as [| j2 js2].
        { rewrite app_nil_r. exact F1. }
        rewrite removelast_app by discriminate.
        apply Forall_app. split; assumption.
      * destruct js2 as [| j2 js2].
        { rewrite app_nil_r. cbn [List.length] in *.
          destruct (fst (exec (k a) h st1)).
          - destruct R2 as [Len2 _]. split; [| exact Last1].
            rewrite length_app, <- Len2. lia.
          - discriminate R2. }
        unfold last_failure in *.
        rewrite (final_app js1 (j2 :: js2)) by discriminate.
        destruct (fst (exec (k a) h st1)); [| exact R2].
        destruct R2 as [Len2 Last2]. split; [| exact Last2].
        rewrite !length_app. lia.
    + exists js1. split; [exact W1 |]. split; [| split; assumption].
      rewrite K1. rewrite firstn_app.
      replace (List.length js1 - List.length ks1)%nat with 0%nat by lia.
      cbn [firstn]. rewrite app_nil_r. reflexivity.
Qed.

(** The file is a straight-line program. *)
Lemma script_straight : straight script_kinds (@script Log Exn).
Proof.
  unfold script, script_kinds, import_modules, print, time,
    xes_import_factory_apply, xes_exporter_export_log.
  repeat match goal with
    | |- straight (?k :: ?ks) (Bind _ _) =>
        apply (straight_bind Log Exn _ _ _ _ [k] ks); [| intros ?]
    | |- straight [_] (Call ?c) => exact (straight_call Log Exn _ c)
    end.
Qed.

End Facts.

End ProcessFacts.

(** ** Properties of the whole process *)

Section ProcessProperties.

Context {Log Exn : Type}.
Implicit Types (h : Process.host Log Exn) (l : Log) (e : Exn).

Local Abbreviation header :=
  "../static/xes/book/bigger-example.xes --> /tmp/out.xes".
Local Abbreviation timing_line h :=
  ("read in "
   ++ PyFloat.format_3f
        (PyFloat.sub (clock (Process.outside h) 1) (clock (Process.outside h) 0))
   ++ "s, wrote in "
   ++ PyFloat.format_3f
        (PyFloat.sub (clock (Process.outside h) 2) (clock (Process.outside h) 1))
   ++ "s").

(** On a host whose module imports succeed and whose console accepts every
    line, the file runs as the body does: same end, same events. *)
Lemma script_runs_as_main h :
  Process.modules h = None ->
  (forall n s, Process.console h n s = None) ->
  Process.ended (Process.run Process.script h)
    = status (run main (Process.outside h))
  /\ Process.visible (Process.journal (Process.run Process.script h))
     = events (run main (Process.outside h)).
Proof.
  intros Hm Hc.
  destruct (ProcessFacts.run_script_cases h)
    as [e Hm' | e _ Hp | e _ _ Hi | l e _ _ Hi He | l e _ _ _ _ Hp
        | l _ _ Hi He _];
    try (rewrite Hm in Hm'; discriminate Hm');
    try (rewrite Hc in Hp; discriminate Hp);
    split_run (run_cases (Process.outside h)); split; reflexivity.
Qed.

(** C5, as amended.  When the import call and the export call are made
    and return, the second print does not raise and the console is flushed
    without error at shutdown, the file prints the timing line last,
    terminates normally, and the exit status is zero. *)
Theorem calls_return_and_console_works_exit_zero h l :
  In (Process.JImport in_path (inr l))
     (Process.journal (Process.run Process.script h)) ->
  In (Process.JExport l out_path None)
     (Process.journal (Process.run Process.script h)) ->
  Process.console h 1 (timing_line h) = None ->
  Process.flushes h = true ->
  Process.ended (Process.run Process.script h) = Normal
  /\ Process.exit_status h (Process.run Process.script h) = 0%Z
  /\ final (Process.journal (Process.run Process.script h))
     = Some (Process.JPrint (timing_line h) None).
Proof.
  intros HI HE Hp Hf. unfold Process.exit_status. rewrite Hf.
  destruct (ProcessFacts.run_script_cases h)
    as [e Hm | e Hm Hp0 | e Hm Hp0 Hi | l' e Hm Hp0 Hi He
        | l' e Hm Hp0 Hi He Ht | l' Hm Hp0 Hi He Ht];
    cbn [Process.journal Process.ended In] in *.
  - repeat (destruct HI as [HI | HI]; [discriminate HI |]). contradiction.
  - repeat (destruct HI as [HI | HI]; [discriminate HI |]). contradiction.
  - repeat (destruct HI as [HI | HI]; [discriminate HI |]). contradiction.
  - repeat (destruct HE as [HE | HE]; [discriminate HE |]). contradiction.
  - rewrite Hp in Ht. discriminate Ht.
  - repeat split.
Qed.

(** C7.  The file is a straight-line program: a sequence of eight calls,
    of fixed kinds, with no handler.  Every run is one of the six runs of
    [script_run]: it makes the calls in the order of the lines, each at most
    once, no call before the last one made raised, the run ends normally
    only when all eight calls were made and the last did not raise, and
    otherwise it ends at the call that raised, with that exception
    uncaught. *)
Theorem script_is_straight_line :
  Process.straight Process.script_kinds (@Process.script Log Exn)
  /\ forall h,
       Process.script_run h (Process.run Process.script h)
       /\ Process.kinds (Process.journal (Process.run Process.script h))
          = firstn (List.length (Process.journal (Process.run Process.script h)))
                   Process.script_kinds
       /\ Forall (fun j => Process.failure j = None)
                 (removelast (Process.journal (Process.run Process.script h)))
       /\ Process.ended (Process.run Process.script h)
          = match Process.last_failure
                    (Process.journal (Process.run Process.script h)) with
            | Some e => Uncaught e
            | None => Normal
            end
       /\ (Process.ended (Process.run Process.script h) = Normal
           -> Process.kinds (Process.journal (Process.run Process.script h))
              = Process.script_kinds).
Proof.
  split; [apply ProcessFacts.script_straight |].
  intros h. split; [apply ProcessFacts.run_script_cases |].
  destruct (ProcessFacts.run_script_cases h) as
      [e Hm | e Hm Hp | e Hm Hp Hi | l e Hm Hp Hi He | l e Hm Hp Hi He Ht
       | l Hm Hp Hi He Ht];
    cbn [Process.journal Process.ended Process.kinds map Process.kind_of
         List.length firstn Process.script_kinds removelast
         Process.last_failure final Process.failure];
    idtac.
  all: split; [reflexivity |].
  all: split; [repeat constructor |].
  all: split; [reflexivity |].
  all: intros H; try discriminate H; reflexivity.
Qed.

(** C9, as amended.  When the import statements of lines 2-4 succeed and
    the first print does not raise, the header line is printed first, before
    any other call of the body; the console shows the header line followed
    by the timing line when the run terminates normally, and the header
    line alone otherwise. *)
Theorem header_first_on_accepting_console h :
  Process.modules h = None ->
  Process.console h 0 header = None ->
  (exists rest,
     Process.journal (Process.run Process.script h)
     = Process.JLoad None :: Process.JPrint header None :: rest)
  /\ hd_error (Process.visible (Process.journal (Process.run Process.script h)))
     = Some (EvPrint header)
  /\ stdout (Process.visible (Process.journal (Process.run Process.script h)))
     = header ::
       match Process.ended (Process.run Process.script h) with
       | Normal => [timing_line h]
       | Uncaught _ => []
       end.
Proof.
  intros Hm Hp.
  destruct (ProcessFacts.run_script_cases h)
    as [e Hm' | e _ Hp' | e _ _ Hi | l e _ _ Hi He | l e _ _ _ _ Ht
        | l _ _ Hi He Ht];
    try (rewrite Hm in Hm'; discriminate Hm');
    try (change (in_path ++ " --> " ++ out_path) with header in Hp';
         rewrite Hp in Hp'; discriminate Hp');
    (split; [eexists; reflexivity |]); split; reflexivity.
Qed.

(** Which statements are attempted.  The calls made are an initial part of
    the eight of the file, in order.  The module imports are always
    attempted; the import call exactly when they and the header print
    succeed; the export call exactly when, besides, the import call
    returns; and the second print, after the third clock sample, exactly
    when, besides, the export call returns. *)
Theorem statements_attempted_per_outcome h :
  Process.kinds (Process.journal (Process.run Process.script h))
  = firstn (List.length (Process.journal (Process.run Process.script h)))
           Process.script_kinds
  /\ Process.count_kind Process.KLoad
       (Process.kinds (Process.journal (Process.run Process.script h))) = 1%nat
  /\ Process.count_kind Process.KImport
       (Process.kinds (Process.journal (Process.run Process.script h)))
     = match Process.modules h, Process.console h 0 header with
       | None, None => 1%nat
       | _, _ => 0%nat
       end
  /\ Process.count_kind Process.KExport
       (Process.kinds (Process.journal (Process.run Process.script h)))
     = match Process.modules h, Process.console h 0 header,
             xes_import (Process.outside h) in_path with
       | None, None, inr _ => 1%nat
       | _, _, _ => 0%nat
       end
  /\ Process.count_kind Process.KPrint
       (Process.kinds (Process.journal (Process.run Process.script h)))
     = match Process.modules h, Process.console h 0 header,
             xes_import (Process.outside h) in_path with
       | Some _, _, _ => 0%nat
       | None, None, inr l =>
           match xes_export (Process.outside h) l out_path with
           | None => 2%nat
           | Some _ => 1%nat
           end
       | None, _, _ => 1%nat
       end
  /\ Process.count_kind Process.KTime
       (Process.kinds (Process.journal (Process.run Process.script h)))
     = match Process.modules h, Process.console h 0 header,
             xes_import (Process.outside h) in_path with
       | None, None, inr l =>
           match xes_export (Process.outside h) l out_path with
           | None => 3%nat
           | Some _ => 2%nat
           end
       | None, None, inl _ => 1%nat
       | _, _, _ => 0%nat
       end.
Proof.
  destruct (ProcessFacts.run_script_cases h) as
      [e Hm | e Hm Hp | e Hm Hp Hi | l e Hm Hp Hi He | l e Hm Hp Hi He Ht
       | l Hm Hp Hi He Ht];
    try change (in_path ++ " --> " ++ out_path) with header in Hp;
    rewrite Hm, ?Hp, ?Hi, ?He; repeat split.
Qed.

End ProcessProperties.

(** ** The whole process at the sample hosts *)

(** C5, as the specification words it, fails in two runs in which the
    input file is there and both library calls are made and return.  When
    standard output is a full device behind a buffer, the run terminates
    normally and the exit status is 120.  When standard output is a pipe
    that closes after the header, the second print raises and the exit
    status is one. *)
Lemma exit_status_nonzero_though_calls_return :
  In (Process.JImport in_path (inr 7%nat))
     (Process.journal (Process.run Process.script Host.full_device))
  /\ In (Process.JExport 7%nat out_path None)
        (Process.journal (Process.run Process.script Host.full_device))
  /\ Process.ended (Process.run Process.script Host.full_device) = Normal
  /\ Process.exit_status Host.full_device
       (Process.run Process.script Host.full_device) = 120%Z
  /\ In (Process.JImport in_path (inr 7%nat))
        (Process.journal (Process.run Process.script Host.closing_pipe))
  /\ In (Process.JExport 7%nat out_path None)
        (Process.journal (Process.run Process.script Host.closing_pipe))
  /\ Process.ended (Process.run Process.script Host.closing_pipe)
     = Uncaught "BrokenPipeError"
  /\ Process.exit_status Host.closing_pipe
       (Process.run Process.script Host.closing_pipe) = 1%Z.
Proof.
  repeat split; vm_compute; auto 10.
Qed.

(** C9, as the specification words it, fails in two runs: when the first
    print raises and when pm4py is missing, nothing is printed at all. *)
Lemma header_missing_in_two_runs :
  Process.journal (Process.run Process.script Host.full_device_unbuffered)
  = [Process.JLoad None;
     Process.JPrint "../static/xes/book/bigger-example.xes --> /tmp/out.xes"
       (Some "OSError")]
  /\ stdout (Process.visible
               (Process.journal
                  (Process.run Process.script Host.full_device_unbuffered)))
     = []
  /\ Process.journal (Process.run Process.script Host.no_pm4py)
     = [Process.JLoad (Some "ModuleNotFoundError")]
  /\ stdout (Process.visible
               (Process.journal (Process.run Process.script Host.no_pm4py)))
     = [].
Proof. repeat split. Qed.

Lemma calls_return_and_console_works_exit_zero_witness :
  In (Process.JImport in_path (inr 7%nat))
     (Process.journal (Process.run Process.script Host.working))
  /\ In (Process.JExport 7%nat out_path None)
        (Process.journal (Process.run Process.script Host.working))
  /\ Process.console Host.working 1 "read in 2.500s, wrote in 2.500s" = None
  /\ Process.flushes Host.working = true
  /\ Process.ended (Process.run Process.script Host.working) = Normal
  /\ Process.exit_status Host.working (Process.run Process.script Host.working)
     = 0%Z
  /\ final (Process.journal (Process.run Process.script Host.working))
     = Some (Process.JPrint "read in 2.500s, wrote in 2.500s" None).
Proof.
  assert (HI : In (Process.JImport in_path (inr 7%nat))
                  (Process.journal (Process.run Process.script Host.working)))
    by (vm_compute; auto 10).
  assert (HE : In (Process.JExport 7%nat out_path None)
                  (Process.journal (Process.run Process.script Host.working)))
    by (vm_compute; auto 10).
  split; [exact HI | split; [exact HE |]].
  do 2 (split; [reflexivity |]).
  exact (calls_return_and_console_works_exit_zero Host.working 7%nat
           HI HE eq_refl eq_refl).
Defined.

Lemma header_first_on_accepting_console_witness :
  Process.modules Host.no_output = None
  /\ Process.console Host.no_output 0
       "../static/xes/book/bigger-example.xes --> /tmp/out.xes" = None
  /\ Process.ended (Process.run Process.script Host.no_output)
     = Uncaught "PermissionError"
  /\ stdout (Process.visible
               (Process.journal (Process.run Process.script Host.no_output)))
     = ["../static/xes/book/bigger-example.xes --> /tmp/out.xes"].
Proof.
  do 3 (split; [reflexivity |]).
  exact (proj2 (proj2 (header_first_on_accepting_console Host.no_output
                         eq_refl eq_refl))).
Defined.
